(** * A shallow embedding of [python_client/client.py] (Stockfish UCI client)

    Strings are [String.string]; a character is a code point 0-255, read as
    Latin-1, which is the range the embedding covers.  Python exceptions are
    the constructors of [exn]; a computation that may raise returns a
    [result].  Python floats are IEEE binary64 values, represented with the
    Standard Library's [SpecFloat] at precision 53 and [emax] 1024. *)

From Stdlib Require Import String Ascii List ZArith Lia Bool.
From Stdlib Require Import Numbers.DecimalString.
From Stdlib Require Import Floats.SpecFloat.
Import ListNotations.
Open Scope string_scope.
Open Scope Z_scope.

(** ** Python exceptions and the error monad *)

Inductive exn : Type :=
| ValueError
| IndexError
| OverflowError
| FileNotFoundError
| BrokenPipeError
| TimeoutExpired
| RuntimeError (msg : string).

Inductive result (A : Type) : Type :=
| Ok (a : A)
| Err (e : exn).
Arguments Ok {A} a.
Arguments Err {A} e.

Definition bind {A B} (m : result A) (k : A -> result B) : result B :=
  match m with
  | Ok a => k a
  | Err e => Err e
  end.

Notation "x <- m ;; k" := (bind m (fun x => k))
  (at level 61, m at next level, right associativity).

(** [try: m except <caught>: handler]: [handler e] is [None] for an
    exception the clause does not name, which then propagates. *)
Definition py_try {A} (m : result A) (handler : exn -> option (result A)) : result A :=
  match m with
  | Ok a => Ok a
  | Err e => match handler e with
             | Some r => r
             | None => Err e
             end
  end.

Definition catches_value_index (e : exn) : bool :=
  match e with ValueError | IndexError => true | _ => false end.

Definition catches_value (e : exn) : bool :=
  match e with ValueError => true | _ => false end.

(** ** Python [str] operations *)

(** [str.isspace] on code points 0-255. *)
Definition is_space (c : ascii) : bool :=
  let n := nat_of_ascii c in
  ((9 <=? n) && (n <=? 13))%nat || ((28 <=? n) && (n <=? 32))%nat
  || (n =? 133)%nat || (n =? 160)%nat.

Fixpoint py_lstrip (s : string) : string :=
  match s with
  | EmptyString => EmptyString
  | String c s' => if is_space c then py_lstrip s' else s
  end.

Fixpoint py_rstrip (s : string) : string :=
  match s with
  | EmptyString => EmptyString
  | String c s' =>
      let r := py_rstrip s' in
      match r with
      | EmptyString => if is_space c then EmptyString else String c EmptyString
      | _ => String c r
      end
  end.

(** [str.strip()] *)
Definition py_strip (s : string) : string := py_rstrip (py_lstrip s).

(** [str.lower()] on code points 0-255. *)
Definition lower_char (c : ascii) : ascii :=
  let n := nat_of_ascii c in
  if ((65 <=? n) && (n <=? 90))%nat || ((192 <=? n) && (n <=? 222) && negb (n =? 215))%nat
  then ascii_of_nat (n + 32) else c.

Fixpoint py_lower (s : string) : string :=
  match s with
  | EmptyString => EmptyString
  | String c s' => String (lower_char c) (py_lower s')
  end.

(** [str.split()] with no separator: runs of whitespace separate the
    tokens, and no token is empty.  [cur] is the token being read. *)
Fixpoint split_aux (s : string) (cur : string) : list string :=
  match s with
  | EmptyString => match cur with EmptyString => [] | _ => [cur] end
  | String c s' =>
      if is_space c then
        match cur with
        | EmptyString => split_aux s' EmptyString
        | _ => cur :: split_aux s' EmptyString
        end
      else split_aux s' (cur ++ String c EmptyString)
  end.

Definition py_split (s : string) : list string := split_aux s EmptyString.

(** [x in xs] for a list of strings. *)
Definition py_in (x : string) (xs : list string) : bool :=
  existsb (String.eqb x) xs.

Fixpoint find_index (x : string) (xs : list string) : option nat :=
  match xs with
  | [] => None
  | y :: ys => if String.eqb x y then Some O
               else option_map S (find_index x ys)
  end.

(** [xs.index(x)]: [ValueError] when absent. *)
Definition py_index (xs : list string) (x : string) : result nat :=
  match find_index x xs with
  | Some i => Ok i
  | None => Err ValueError
  end.

(** [xs[i]] for a non-negative index: [IndexError] out of range. *)
Definition py_getitem (xs : list string) (i : nat) : result string :=
  match nth_error xs i with
  | Some x => Ok x
  | None => Err IndexError
  end.

(** [str(n)] for a Python [int]. *)
Definition py_str_int (z : Z) : string := NilEmpty.string_of_int (Z.to_int z).

(** ** [int(s)] and [float(s)] on strings *)

Definition is_digit (c : ascii) : bool :=
  ((48 <=? nat_of_ascii c) && (nat_of_ascii c <=? 57))%nat.

Definition digit_val (c : ascii) : Z := Z.of_nat (nat_of_ascii c) - 48.

(** The rest of a [digitpart] ([digit (["_"] digit)*]) after its first
    digit: the value read so far, the number of digits, the unread rest. *)
Fixpoint digits_tail (s : string) (acc : Z) (n : nat) : Z * nat * string :=
  match s with
  | EmptyString => (acc, n, EmptyString)
  | String c s' =>
      if is_digit c then digits_tail s' (10 * acc + digit_val c) (S n)
      else if Ascii.eqb c "_"%char then
        match s' with
        | String c2 s'' =>
            if is_digit c2 then digits_tail s'' (10 * acc + digit_val c2) (S n)
            else (acc, n, s)
        | EmptyString => (acc, n, s)
        end
      else (acc, n, s)
  end.

Definition digitpart (s : string) : option (Z * nat * string) :=
  match s with
  | String c s' => if is_digit c then Some (digits_tail s' (digit_val c) 1%nat) else None
  | EmptyString => None
  end.

Definition split_sign (s : string) : bool * string :=
  match s with
  | String c r => if Ascii.eqb c "-"%char then (true, r)
                  else if Ascii.eqb c "+"%char then (false, r)
                  else (false, s)
  | EmptyString => (false, s)
  end.

(** CPython's default limit on the digits of a decimal [int] string
    ([sys.int_info.default_max_str_digits]). *)
Definition int_max_str_digits : nat := 4300.

(** [int(s)] *)
Definition py_int (s : string) : result Z :=
  let '(neg, body) := split_sign (py_strip s) in
  match digitpart body with
  | Some (v, n, EmptyString) =>
      if (n <=? int_max_str_digits)%nat then Ok (if neg then - v else v)
      else Err ValueError
  | _ => Err ValueError
  end.

Definition prec : Z := 53.
Definition emax : Z := 1024.

(** The double nearest to [(-1)^neg * m * 10^e] (ties to even), [m >= 0]. *)
Definition round_decimal (neg : bool) (m e : Z) : spec_float :=
  if m =? 0 then S754_zero neg
  else if 0 <=? e then binary_normalize prec emax (cond_Zopp neg (m * 10 ^ e)) 0 neg
  else let '(q, e', l) := SFdiv_core_binary prec emax m 0 (10 ^ (- e)) 0 in
       binary_round_aux prec emax neg q e' l.

(** The decimal literal of [float(s)]: [digitpart ["." [digitpart]]] or
    ["." digitpart], then an optional exponent; mantissa and exponent. *)
Definition py_decimal (s : string) : option (Z * Z) :=
  let '(ip, ni, r1) := match digitpart s with
                        | Some r => r
                        | None => (0, O, s)
                        end in
  let '(fp, nf, r2) := match r1 with
                        | String c r =>
                            if Ascii.eqb c "."%char then
                              match digitpart r with
                              | Some x => x
                              | None => (0, O, r)
                              end
                            else (0, O, r1)
                        | EmptyString => (0, O, r1)
                        end in
  if (ni + nf =? 0)%nat then None else
  let m := ip * 10 ^ Z.of_nat nf + fp in
  match r2 with
  | EmptyString => Some (m, - Z.of_nat nf)
  | String c r3 =>
      if Ascii.eqb c "e"%char || Ascii.eqb c "E"%char then
        let '(eneg, r4) := split_sign r3 in
        match digitpart r4 with
        | Some (ev, _, EmptyString) =>
            Some (m, (if eneg then - ev else ev) - Z.of_nat nf)
        | _ => None
        end
      else None
  end.

(** [float(s)] *)
Definition py_float (s : string) : result spec_float :=
  let '(neg, body) := split_sign (py_strip s) in
  let low := py_lower body in
  if String.eqb low "inf" || String.eqb low "infinity" then Ok (S754_infinity neg)
  else if String.eqb low "nan" then Ok S754_nan
  else match py_decimal body with
       | Some (m, e) => Ok (round_decimal neg m e)
       | None => Err ValueError
       end.

(** Converting an [int] to a [float] ([PyLong_AsDouble]) rounds to
    nearest-even and raises [OverflowError] past the largest double. *)
Definition py_int_to_float (v : Z) : result spec_float :=
  match binary_normalize prec emax v 0 false with
  | S754_infinity _ => Err OverflowError
  | f => Ok f
  end.

(** The literal [100.0]. *)
Definition float_100 : spec_float := binary_normalize prec emax 100 0 false.

(** [v / y] for an [int] [v] and a non-zero [float] [y]. *)
Definition py_truediv_int_float (v : Z) (y : spec_float) : result spec_float :=
  f <- py_int_to_float v ;; Ok (SFdiv prec emax f y).

Definition is_finite_float (f : spec_float) : bool :=
  match f with
  | S754_zero _ | S754_finite _ _ _ => true
  | _ => false
  end.

(** ** Data model *)

(** A Python number stored in [Evaluation.score_value]: the [mate] branch
    stores an [int], the others a [float]. *)
Inductive pynum : Type :=
| PyInt (z : Z)
| PyFloat (f : spec_float).

Record Evaluation : Type := mkEvaluation {
  score_type : string;
  score_value : pynum;
  depth : Z
}.

Record Prediction : Type := mkPrediction {
  bestmove : string;
  ponder : option string;
  evaluation : Evaluation
}.

(** ** [StockfishDockerClient._parse_evaluation] *)

(** Lines 187-194: [depth = 0], then the [depth] token, if present. *)
Definition parse_depth (tokens : list string) : result Z :=
  if py_in "depth" tokens then
    py_try
      (depth_index <- py_index tokens "depth" ;;
       depth_value <- py_getitem tokens (S depth_index) ;;
       py_int depth_value)
      (fun e => if catches_value_index e then Some (Ok 0) else None)
  else Ok 0.

(** Lines 196-203: the numeric value, by score type. *)
Definition parse_score (score_type score_value : string) (depth : Z)
  : result (option Evaluation) :=
  py_try
    (if String.eqb score_type "cp" then
       v <- py_int score_value ;;
       q <- py_truediv_int_float v float_100 ;;
       Ok (Some (mkEvaluation score_type (PyFloat q) depth))
     else if String.eqb score_type "mate" then
       v <- py_int score_value ;;
       Ok (Some (mkEvaluation score_type (PyInt v) depth))
     else
       f <- py_float score_value ;;
       Ok (Some (mkEvaluation score_type (PyFloat f) depth)))
    (fun e => if catches_value e then Some (Ok None) else None).

Definition parse_evaluation (raw_line : string) : result (option Evaluation) :=
  let tokens := py_split raw_line in
  if negb (py_in "score" tokens) then Ok None else
  let header :=
    py_try
      (score_index <- py_index tokens "score" ;;
       score_type <- py_getitem tokens (S score_index) ;;
       score_value <- py_getitem tokens (S (S score_index)) ;;
       Ok (Some (score_type, score_value)))
      (fun e => if catches_value_index e then Some (Ok None) else None) in
  h <- header ;;
  match h with
  | None => Ok None
  | Some (score_type, score_value) =>
      d <- parse_depth tokens ;;
      parse_score score_type score_value d
  end.

(** ** The streaming read loop of [StockfishDockerClient._query_engine] *)

Record loop_state : Type := mkLoopState {
  ls_bestmove : option string;
  ls_ponder : option string;
  ls_evaluation : option Evaluation;
  ls_best_depth : Z
}.

Definition loop_init : loop_state := mkLoopState None None None (-1).

(** The [bestmove] branch, which ends the loop. *)
Definition bestmove_line (line : string) (st : loop_state) : result loop_state :=
  let tokens := py_split line in
  let bm := if (2 <=? length tokens)%nat then nth_error tokens 1 else ls_bestmove st in
  if py_in "ponder" tokens then
    ponder_index <- py_index tokens "ponder" ;;
    let pd := if (S ponder_index <? length tokens)%nat
              then nth_error tokens (S ponder_index) else ls_ponder st in
    Ok (mkLoopState bm pd (ls_evaluation st) (ls_best_depth st))
  else Ok (mkLoopState bm (ls_ponder st) (ls_evaluation st) (ls_best_depth st)).

(** The [info] branch after a parse: an [Evaluation] instance is always
    truthy, so [if parsed and parsed.depth >= best_depth] tests the depth. *)
Definition track (parsed : option Evaluation) (st : loop_state) : loop_state :=
  match parsed with
  | Some p =>
      if ls_best_depth st <=? depth p
      then mkLoopState (ls_bestmove st) (ls_ponder st) (Some p) (depth p)
      else st
  | None => st
  end.

(** [for raw_line in process.stdout: ...]; the list is the whole output
    of the stream until it closes. *)
Fixpoint read_loop (lines : list string) (st : loop_state) : result loop_state :=
  match lines with
  | [] => Ok st
  | raw_line :: rest =>
      let line := py_strip raw_line in
      if String.eqb line "" then read_loop rest st
      else if String.prefix "info" line then
        match parse_evaluation line with
        | Err e => Err e
        | Ok parsed => read_loop rest (track parsed st)
        end
      else if String.prefix "bestmove" line then bestmove_line line st
      else read_loop rest st
  end.

(** ** The command script of [StockfishDockerClient._query_engine] *)

Definition engine_commands (fen : string) (depth : Z) (moves : option (list string))
  : list string :=
  let moves_payload := match moves with
                       | Some ((_ :: _) as l) => Some l
                       | _ => None
                       end in
  let position :=
    match moves_payload with
    | Some ms =>
        if String.eqb fen "startpos" then "position startpos moves " ++ String.concat " " ms
        else "position fen " ++ fen ++ " moves " ++ String.concat " " ms
    | None =>
        if String.eqb fen "startpos" then "position startpos"
        else "position fen " ++ fen
    end in
  app ["uci"; "isready"; "ucinewgame"] (position :: ["go depth " ++ py_str_int depth]).

Definition nl : string := String (ascii_of_nat 10) EmptyString.

(** ** The engine process, as seen by the client

    [p_launch]: [Popen] finds the [docker] executable;
    [p_script_ok]: writing and flushing the command script succeeds;
    [p_stdout]: the lines of standard output until the stream closes;
    [p_quit_ok]: writing and flushing [quit] succeeds (the pipe is open);
    [p_exits_in_time]: the process exits within [communicate(timeout=5)];
    [p_returncode], [p_stderr]: its exit status and standard error. *)
Record process : Type := mkProcess {
  p_launch : bool;
  p_script_ok : bool;
  p_stdout : list string;
  p_quit_ok : bool;
  p_exits_in_time : bool;
  p_returncode : Z;
  p_stderr : string
}.

(** Lines 163-172, after the [try]/[finally] block.  [communicate] has
    returned, so [returncode] is an [int]. *)
Definition finish_query (depth : Z) (st : loop_state) (stderr_output : string) (returncode : Z)
  : result Prediction :=
  if negb (returncode =? 0) then
    Err (RuntimeError ("Stockfish process failed: " ++ py_strip stderr_output))
  else match ls_bestmove st with
       | None => Err (RuntimeError "Stockfish did not report a best move")
       | Some bm =>
           let ev := match ls_evaluation st with
                     | Some e => e
                     | None => mkEvaluation "cp" (PyFloat (S754_zero false)) depth
                     end in
           Ok (mkPrediction bm (ls_ponder st) ev)
       end.

(** [_query_engine(fen, depth, moves)]: the lines written to the engine's
    standard input, and the outcome.  The [finally] clause only kills the
    process; it changes neither the value nor the exception. *)
Definition query_engine (fen : string) (depth : Z) (moves : option (list string))
  (p : process) : list string * result Prediction :=
  let commands := engine_commands fen depth moves in
  if negb (p_launch p) then
    ([], Err (RuntimeError "Docker is not installed or not found in PATH"))
  else
    let script := map (fun command => command ++ nl) commands in
    if negb (p_script_ok p) then (script, Err BrokenPipeError) else
    match read_loop (p_stdout p) loop_init with
    | Err e => (script, Err e)
    | Ok st =>
        let written := app script ["quit" ++ nl] in
        if negb (p_quit_ok p) then (written, Err BrokenPipeError)
        else if negb (p_exits_in_time p) then (written, Err TimeoutExpired)
        else (written, finish_query depth st (p_stderr p) (p_returncode p))
    end.

(** [predict_next_move] returns the prediction of [_query_engine]. *)
Definition predict_next_move (fen : string) (depth : Z) (moves : option (list string))
  (p : process) : result Prediction :=
  snd (query_engine fen depth moves p).

(** ** [StockfishDockerClient.is_service_ready] *)

(** The outcome of [docker inspect -f {{.State.Running}} <name>]. *)
Inductive inspect_outcome : Type :=
| InspectNotFound                                (** [FileNotFoundError] *)
| InspectDone (returncode : Z) (stdout : string).

(** [check=True] raises [CalledProcessError] on a non-zero status. *)
Definition is_service_ready (o : inspect_outcome) : bool :=
  match o with
  | InspectNotFound => false
  | InspectDone rc out =>
      if negb (rc =? 0) then false
      else String.eqb (py_lower (py_strip out)) "true"
  end.

(** ** [StockfishDockerClient.analyze_position] *)

(** [self._query_engine(fen, depth, moves).evaluation] *)
Definition analyze_position (fen : string) (depth : Z) (moves : option (list string))
  (p : process) : result Evaluation :=
  pr <- snd (query_engine fen depth moves p) ;; Ok (evaluation pr).

(** ** [main] *)

(** [main] after [argparse]: [fen], [depth] and [moves] are the parsed
    options ([nargs="+"] gives [None] or a non-empty list), [o] is what
    [docker inspect] reports for [--container-name], and [p] is the engine
    process [docker exec] starts in that container.  The result is the
    lines printed, and the exception [main] raises, if any. *)
Section Main.

(** [str(x)] of a Python [float] (its shortest round-trip [repr]). *)
Variable float_repr : spec_float -> string.




End Main.

(** ** Definitions that follow the spec's words, compared with the code *)

(** The [position] command as the spec describes it. *)
Definition spec_position_line (fen : string) (moves : list string) : string :=
  let base := if String.eqb fen "startpos" then "position startpos"
              else "position fen " ++ fen in
  match moves with
  | [] => base
  | _ :: _ => base ++ " moves " ++ String.concat " " moves
  end.

(** Case-insensitive comparison of ASCII text. *)
Definition upper_ascii (c : ascii) : ascii :=
  let n := nat_of_ascii c in
  if ((97 <=? n) && (n <=? 122))%nat then ascii_of_nat (n - 32) else c.

Fixpoint ci_eq (s t : string) : bool :=
  match s, t with
  | EmptyString, EmptyString => true
  | String a s', String b t' => Ascii.eqb (upper_ascii a) (upper_ascii b) && ci_eq s' t'
  | _, _ => false
  end.

(** The evaluations the read loop parses successfully, in order, from the
    lines it reads (up to and excluding the [bestmove] line). *)
Fixpoint parsed_evaluations (lines : list string) : list Evaluation :=
  match lines with
  | [] => []
  | raw_line :: rest =>
      let line := py_strip raw_line in
      if String.eqb line "" then parsed_evaluations rest
      else if String.prefix "info" line then
        match parse_evaluation line with
        | Ok (Some e) => e :: parsed_evaluations rest
        | _ => parsed_evaluations rest
        end
      else if String.prefix "bestmove" line then []
      else parsed_evaluations rest
  end.

(** [e] is the evaluation of maximum depth in [es], the latest one among
    those of that depth. *)
Definition deepest_latest (es : list Evaluation) (e : Evaluation) : Prop :=
  exists l1 l2, es = app l1 (e :: l2)
    /\ Forall (fun x => depth x <= depth e) l1
    /\ Forall (fun x => depth x < depth e) l2.

(** The integer a line gives after its first [depth] token, if any. *)
Definition depth_field (line : string) : option Z :=
  let tokens := py_split line in
  match find_index "depth" tokens with
  | Some j => match nth_error tokens (S j) with
              | Some t => match py_int t with Ok d => Some d | Err _ => None end
              | None => None
              end
  | None => None
  end.

Definition pynum_finite (x : pynum) : bool :=
  match x with
  | PyInt _ => true
  | PyFloat f => is_finite_float f
  end.

Definition with_stdout (p : process) (lines : list string) : process :=
  mkProcess (p_launch p) (p_script_ok p) lines (p_quit_ok p) (p_exits_in_time p)
    (p_returncode p) (p_stderr p).

Definition no_bestmove_line (lines : list string) : Prop :=
  forall l, In l lines -> String.prefix "bestmove" (py_strip l) = false.

(** The read loop keeps an evaluation only if its depth reaches the
    initial [best_depth = -1]. *)
Definition trackable (e : Evaluation) : bool := -1 <=? depth e.

(** The state of the loop against the trackable evaluations seen so far. *)
Definition tracked_inv (st : loop_state) (acc : list Evaluation) : Prop :=
  (ls_evaluation st = None /\ ls_best_depth st = -1 /\ acc = []) \/
  (exists e, ls_evaluation st = Some e /\ ls_best_depth st = depth e /\ -1 <= depth e
             /\ deepest_latest acc e).

(** The letters of the status sentinel [true]. *)
Definition sentinel_chars : list ascii := ["t"; "r"; "u"; "e"]%char.

Fixpoint sentinel_text (t : string) : Prop :=
  match t with
  | EmptyString => True
  | String c t' => In c sentinel_chars /\ sentinel_text t'
  end.

(** Whether a string contains a whitespace character ([str.isspace]). *)
Fixpoint has_space (s : string) : bool :=
  match s with
  | EmptyString => false
  | String c s' => is_space c || has_space s'
  end.

(** * Theorems *)

(** ** The command script *)

Lemma string_app_assoc (a b c : string) : (a ++ b) ++ c = a ++ (b ++ c).
Proof. induction a as [|x a IH]; simpl; [reflexivity | now rewrite IH]. Qed.

Lemma engine_commands_position (fen : string) (depth : Z) (moves : option (list string)) :
  engine_commands fen depth moves =
  ["uci"; "isready"; "ucinewgame";
   spec_position_line fen (match moves with Some ms => ms | None => [] end);
   "go depth " ++ py_str_int depth].
Proof.
  unfold engine_commands, spec_position_line.
  destruct moves as [[|m ms]|]; cbn -[String.append String.concat]; try reflexivity.
  destruct (String.eqb fen "startpos"); [reflexivity|].
  rewrite string_app_assoc. reflexivity.
Qed.

(** C4: once the engine is launched, the lines written to its standard
    input start with exactly [uci], [isready], [ucinewgame], the
    [position] line of the spec and [go depth <depth>], each newline
    terminated; the only line written afterwards is [quit]. *)
Theorem engine_script_order (fen : string) (depth : Z) (moves : option (list string))
  (p : process) (Hlaunch : p_launch p = true) :
  exists rest,
    fst (query_engine fen depth moves p) =
      app (map (fun c => c ++ nl)
             ["uci"; "isready"; "ucinewgame";
              spec_position_line fen (match moves with Some ms => ms | None => [] end);
              "go depth " ++ py_str_int depth]) rest
    /\ (rest = [] \/ rest = ["quit" ++ nl]).
Proof.
  unfold query_engine. rewrite Hlaunch, engine_commands_position. simpl negb.
  cbv iota.
  destruct (p_script_ok p); simpl negb; cbv iota.
  - destruct (read_loop (p_stdout p) loop_init) as [st|e].
    + exists ["quit" ++ nl]. split; [|right; reflexivity].
      destruct (p_quit_ok p), (p_exits_in_time p); reflexivity.
    + exists []. split; [rewrite app_nil_r; reflexivity | left; reflexivity].
  - exists []. split; [rewrite app_nil_r; reflexivity | left; reflexivity].
Qed.

(** ** The readiness probe *)

Lemma forall_ascii (P : ascii -> bool) :
  forallb (fun n => P (ascii_of_nat n)) (seq 0 256) = true -> forall c, P c = true.
Proof.
  intros H c. rewrite <- (ascii_nat_embedding c).
  rewrite forallb_forall in H. apply H. apply in_seq.
  pose proof (nat_ascii_bounded c). lia.
Qed.

Lemma lower_char_sentinel (c t : ascii) :
  In t sentinel_chars ->
  Ascii.eqb (lower_char c) t = Ascii.eqb (upper_ascii c) (upper_ascii t).
Proof.
  intros Ht.
  assert (H : forall c, forallb (fun t => Bool.eqb (Ascii.eqb (lower_char c) t)
                                          (Ascii.eqb (upper_ascii c) (upper_ascii t)))
                                sentinel_chars = true).
  { apply forall_ascii. vm_compute. reflexivity. }
  specialize (H c). rewrite forallb_forall in H.
  apply Bool.eqb_prop. now apply H.
Qed.

Lemma lower_eqb_ci (s t : string) :
  sentinel_text t -> String.eqb (py_lower s) t = ci_eq s t.
Proof.
  revert t. induction s as [|a s IH]; intros [|b t] Ht; try reflexivity.
  simpl in Ht |- *. destruct Ht as [Hb Ht].
  rewrite (lower_char_sentinel a b Hb), (IH t Ht). reflexivity.
Qed.

(** C8: the probe answers [false] when [docker] is missing and when the
    inspection exits non-zero; otherwise it answers whether the trimmed
    status output equals [true] case-insensitively. *)
Theorem service_ready_probe (o : inspect_outcome) :
  is_service_ready o =
  match o with
  | InspectNotFound => false
  | InspectDone rc out => (rc =? 0) && ci_eq (py_strip out) "true"
  end.
Proof.
  destruct o as [|rc out]; [reflexivity|]. simpl.
  destruct (rc =? 0); simpl; [|reflexivity].
  apply lower_eqb_ci. simpl. tauto.
Qed.

(** ** Outcomes of a session *)

Lemma track_bestmove (parsed : option Evaluation) (st : loop_state) :
  ls_bestmove (track parsed st) = ls_bestmove st.
Proof.
  destruct parsed as [p|]; simpl; [destruct (ls_best_depth st <=? depth p)|]; reflexivity.
Qed.

Lemma read_loop_no_bestmove (lines : list string) (st st' : loop_state) :
  no_bestmove_line lines -> read_loop lines st = Ok st' -> ls_bestmove st' = ls_bestmove st.
Proof.
  revert st. induction lines as [|l lines IH]; intros st Hno Hloop; simpl in Hloop.
  - now injection Hloop as <-.
  - assert (Hl : String.prefix "bestmove" (py_strip l) = false) by (apply Hno; left; auto).
    assert (Hrest : no_bestmove_line lines) by (intros x Hx; apply Hno; right; auto).
    destruct (String.eqb (py_strip l) ""); [now apply IH|].
    destruct (String.prefix "info" (py_strip l)).
    + destruct (parse_evaluation (py_strip l)) as [parsed|e]; [|discriminate].
      rewrite (IH _ Hrest Hloop). apply track_bestmove.
    + rewrite Hl in Hloop. now apply IH.
Qed.

Lemma read_loop_bare_bestmove (pre post : list string) (b : string) (st : loop_state) :
  no_bestmove_line pre -> py_strip b = "bestmove" ->
  read_loop (app pre (b :: post)) st = read_loop pre st.
Proof.
  intros Hpre Hb. revert st. induction pre as [|l pre IH]; intros st; simpl.
  - rewrite Hb. simpl. destruct st; reflexivity.
  - assert (Hl : String.prefix "bestmove" (py_strip l) = false) by (apply Hpre; left; auto).
    assert (Hrest : no_bestmove_line pre) by (intros x Hx; apply Hpre; right; auto).
    destruct (String.eqb (py_strip l) ""); [now apply IH|].
    destruct (String.prefix "info" (py_strip l)).
    + destruct (parse_evaluation (py_strip l)); [now apply IH | reflexivity].
    + rewrite Hl. now apply IH.
Qed.

Lemma no_bestmove_outcome (fen : string) (depth : Z) (moves : option (list string))
  (p : process) :
  no_bestmove_line (p_stdout p) ->
  (forall pr, predict_next_move fen depth moves p <> Ok pr) /\
  (p_launch p = true -> p_script_ok p = true ->
   (exists st, read_loop (p_stdout p) loop_init = Ok st) ->
   p_quit_ok p = true -> p_exits_in_time p = true -> p_returncode p = 0 ->
   predict_next_move fen depth moves p =
     Err (RuntimeError "Stockfish did not report a best move")).
Proof.
  intros Hno. unfold predict_next_move, query_engine.
  assert (Hbm : forall st, read_loop (p_stdout p) loop_init = Ok st -> ls_bestmove st = None)
    by (intros st Hst; exact (read_loop_no_bestmove _ _ _ Hno Hst)).
  split.
  - intros pr.
    destruct (p_launch p), (p_script_ok p); simpl; try discriminate.
    destruct (read_loop (p_stdout p) loop_init) as [st|e] eqn:Hst; [|discriminate].
    destruct (p_quit_ok p), (p_exits_in_time p); simpl; try discriminate.
    unfold finish_query. rewrite (Hbm st eq_refl).
    destruct (negb (p_returncode p =? 0)); discriminate.
  - intros Hl Hs [st Hst] Hq Ht Hrc.
    rewrite Hl, Hs, Hst, Hq, Ht. simpl.
    unfold finish_query. rewrite Hrc, (Hbm st Hst). reflexivity.
Qed.

(** C6: when the process exits with a non-zero status after the wait,
    the session raises the process-failure error with the trimmed standard
    error, whatever the read loop found, a best move included. *)
Theorem nonzero_exit_engine_failure (fen : string) (depth : Z)
  (moves : option (list string)) (p : process) (st : loop_state)
  (Hlaunch : p_launch p = true) (Hscript : p_script_ok p = true)
  (Hloop : read_loop (p_stdout p) loop_init = Ok st)
  (Hquit : p_quit_ok p = true) (Htime : p_exits_in_time p = true)
  (Hrc : p_returncode p <> 0) :
  predict_next_move fen depth moves p =
    Err (RuntimeError ("Stockfish process failed: " ++ py_strip (p_stderr p))).
Proof.
  unfold predict_next_move, query_engine.
  rewrite Hlaunch, Hscript, Hloop, Hquit, Htime. simpl.
  unfold finish_query. apply Z.eqb_neq in Hrc. rewrite Hrc. reflexivity.
Qed.

(** C2 (amended): when the read loop found a best move and no evaluation,
    and the process exits with status 0 within the wait, the session
    returns the fallback evaluation [cp], [0.0] at the requested depth. *)
Theorem fallback_evaluation (fen : string) (depth : Z) (moves : option (list string))
  (p : process) (st : loop_state) (bm : string)
  (Hlaunch : p_launch p = true) (Hscript : p_script_ok p = true)
  (Hloop : read_loop (p_stdout p) loop_init = Ok st)
  (Hbm : ls_bestmove st = Some bm) (Hnone : ls_evaluation st = None)
  (Hquit : p_quit_ok p = true) (Htime : p_exits_in_time p = true)
  (Hrc : p_returncode p = 0) :
  predict_next_move fen depth moves p =
    Ok (mkPrediction bm (ls_ponder st) (mkEvaluation "cp" (PyFloat (S754_zero false)) depth)).
Proof.
  unfold predict_next_move, query_engine.
  rewrite Hlaunch, Hscript, Hloop, Hquit, Htime. simpl.
  unfold finish_query. rewrite Hrc, Hbm, Hnone. reflexivity.
Qed.

(** C7 (amended): when no line of the output begins with [bestmove], the
    session never returns a prediction; if the loop ends without an
    exception and the process exits with status 0 within the wait, it
    raises the missing-best-move error. *)
Theorem no_bestmove_protocol_failure (fen : string) (depth : Z)
  (moves : option (list string)) (p : process)
  (Hno : no_bestmove_line (p_stdout p)) :
  (forall pr, predict_next_move fen depth moves p <> Ok pr) /\
  (p_launch p = true -> p_script_ok p = true ->
   (exists st, read_loop (p_stdout p) loop_init = Ok st) ->
   p_quit_ok p = true -> p_exits_in_time p = true -> p_returncode p = 0 ->
   predict_next_move fen depth moves p =
     Err (RuntimeError "Stockfish did not report a best move")).
Proof. exact (no_bestmove_outcome fen depth moves p Hno). Qed.

(** C10 (amended): a terminal line that is just [bestmove] ends the loop
    without recording a move: the session behaves exactly as if the
    output had stopped before it, and raises the missing-best-move error
    when the process exits with status 0 within the wait. *)
Theorem bare_bestmove_line_no_move (fen : string) (depth : Z)
  (moves : option (list string)) (p : process) (pre post : list string) (b : string)
  (Hpre : no_bestmove_line pre) (Hb : py_strip b = "bestmove") :
  read_loop (app pre (b :: post)) loop_init = read_loop pre loop_init /\
  query_engine fen depth moves (with_stdout p (app pre (b :: post))) =
    query_engine fen depth moves (with_stdout p pre) /\
  (p_launch p = true -> p_script_ok p = true ->
   (exists st, read_loop pre loop_init = Ok st) ->
   p_quit_ok p = true -> p_exits_in_time p = true -> p_returncode p = 0 ->
   predict_next_move fen depth moves (with_stdout p (app pre (b :: post))) =
     Err (RuntimeError "Stockfish did not report a best move")).
Proof.
  assert (Hq : query_engine fen depth moves (with_stdout p (app pre (b :: post))) =
               query_engine fen depth moves (with_stdout p pre)).
  { unfold query_engine. simpl. rewrite (read_loop_bare_bestmove pre post b _ Hpre Hb).
    reflexivity. }
  split; [exact (read_loop_bare_bestmove pre post b _ Hpre Hb)|].
  split; [exact Hq|].
  intros. unfold predict_next_move. rewrite Hq.
  apply (no_bestmove_outcome fen depth moves (with_stdout p pre) Hpre); assumption.
Qed.

(** ** Witnesses and counterexamples for the session claims *)

Lemma engine_script_order_witness :
  exists rest,
    fst (query_engine "startpos" 8 (Some ["e2e4"; "e7e5"])
           (mkProcess true true ["bestmove g1f3"] true true 0 "")) =
      app (map (fun c => c ++ nl)
             ["uci"; "isready"; "ucinewgame"; "position startpos moves e2e4 e7e5";
              "go depth 8"]) rest
    /\ (rest = [] \/ rest = ["quit" ++ nl]).
Proof.
  exact (engine_script_order "startpos" 8 (Some ["e2e4"; "e7e5"])
           (mkProcess true true ["bestmove g1f3"] true true 0 "") eq_refl).
Defined.

Lemma nonzero_exit_engine_failure_witness :
  read_loop ["info depth 4 score cp 25"; "bestmove e2e4 ponder e7e5"] loop_init =
    Ok (mkLoopState (Some "e2e4") (Some "e7e5")
          (Some (mkEvaluation "cp" (PyFloat (S754_finite false 4503599627370496 (-54))) 4)) 4)
  /\ predict_next_move "startpos" 4 None
       (mkProcess true true ["info depth 4 score cp 25"; "bestmove e2e4 ponder e7e5"]
          true true 1 ("segfault" ++ nl)) =
     Err (RuntimeError "Stockfish process failed: segfault").
Proof.
  split; [vm_compute; reflexivity|].
  apply (nonzero_exit_engine_failure "startpos" 4 None
           (mkProcess true true ["info depth 4 score cp 25"; "bestmove e2e4 ponder e7e5"]
              true true 1 ("segfault" ++ nl))
           (mkLoopState (Some "e2e4") (Some "e7e5")
              (Some (mkEvaluation "cp" (PyFloat (S754_finite false 4503599627370496 (-54))) 4)) 4));
    first [discriminate | vm_compute; reflexivity].
Defined.

(** The spec's example: output [bestmove d2d4] only, requested depth 8. *)
Lemma fallback_evaluation_witness :
  read_loop ["bestmove d2d4" ++ nl] loop_init = Ok (mkLoopState (Some "d2d4") None None (-1))
  /\ predict_next_move "startpos" 8 None
       (mkProcess true true ["bestmove d2d4" ++ nl] true true 0 "") =
     Ok (mkPrediction "d2d4" None (mkEvaluation "cp" (PyFloat (S754_zero false)) 8)).
Proof.
  split; [vm_compute; reflexivity|].
  apply (fallback_evaluation "startpos" 8 None
           (mkProcess true true ["bestmove d2d4" ++ nl] true true 0 "")
           (mkLoopState (Some "d2d4") None None (-1)) "d2d4");
    vm_compute; reflexivity.
Defined.

(** C2 fails as stated: a best move and no evaluation, but a non-zero exit
    status, and the session raises instead of returning. *)
Lemma fallback_evaluation_nonzero_exit :
  read_loop ["bestmove d2d4"] loop_init = Ok (mkLoopState (Some "d2d4") None None (-1))
  /\ predict_next_move "startpos" 8 None (mkProcess true true ["bestmove d2d4"] true true 1 "") =
     Err (RuntimeError "Stockfish process failed: ").
Proof. split; vm_compute; reflexivity. Qed.

Lemma no_bestmove_protocol_failure_witness :
  (forall pr, predict_next_move "startpos" 8 None
                (mkProcess true true ["info depth 3 score cp 10"; ""] true true 0 "") <> Ok pr) /\
  predict_next_move "startpos" 8 None
    (mkProcess true true ["info depth 3 score cp 10"; ""] true true 0 "") =
    Err (RuntimeError "Stockfish did not report a best move").
Proof.
  assert (H : no_bestmove_line ["info depth 3 score cp 10"; ""]).
  { intros l [<-|[<-|[]]]; reflexivity. }
  destruct (no_bestmove_protocol_failure "startpos" 8 None
              (mkProcess true true ["info depth 3 score cp 10"; ""] true true 0 "") H)
    as [H1 H2].
  split; [exact H1|].
  apply H2; try reflexivity. eexists. vm_compute. reflexivity.
Defined.

(** C7 fails as stated: the stream closes without a [bestmove] line, but
    the non-zero exit status is reported first. *)
Lemma no_bestmove_nonzero_exit :
  predict_next_move "startpos" 8 None
    (mkProcess true true ["info depth 3 score cp 10"] true true 1 "killed") =
  Err (RuntimeError "Stockfish process failed: killed").
Proof. vm_compute. reflexivity. Qed.

Lemma bare_bestmove_line_no_move_witness :
  read_loop (app ["info depth 2 score cp 5"] ["bestmove" ++ nl; "bestmove e2e4"]) loop_init =
    read_loop ["info depth 2 score cp 5"] loop_init /\
  query_engine "startpos" 8 None
    (with_stdout (mkProcess true true [] true true 0 "")
       (app ["info depth 2 score cp 5"] ["bestmove" ++ nl; "bestmove e2e4"])) =
    query_engine "startpos" 8 None
      (with_stdout (mkProcess true true [] true true 0 "") ["info depth 2 score cp 5"]) /\
  predict_next_move "startpos" 8 None
    (with_stdout (mkProcess true true [] true true 0 "")
       (app ["info depth 2 score cp 5"] ["bestmove" ++ nl; "bestmove e2e4"])) =
    Err (RuntimeError "Stockfish did not report a best move").
Proof.
  assert (H : no_bestmove_line ["info depth 2 score cp 5"]).
  { intros l [<-|[]]; reflexivity. }
  destruct (bare_bestmove_line_no_move "startpos" 8 None (mkProcess true true [] true true 0 "")
              ["info depth 2 score cp 5"] ["bestmove e2e4"] ("bestmove" ++ nl) H eq_refl)
    as [H1 [H2 H3]].
  split; [exact H1|]. split; [exact H2|].
  apply H3; try reflexivity. eexists. vm_compute. reflexivity.
Defined.

(** C10 fails as stated: with a non-zero exit status a bare [bestmove]
    line leads to the process-failure error, not the missing-move one. *)
Lemma bare_bestmove_nonzero_exit :
  predict_next_move "startpos" 8 None (mkProcess true true ["bestmove"] true true 1 "") =
  Err (RuntimeError "Stockfish process failed: ").
Proof. vm_compute. reflexivity. Qed.

(** ** Depth tracking in the read loop *)

Lemma deepest_latest_bound (es : list Evaluation) (e : Evaluation) :
  deepest_latest es e -> Forall (fun x => depth x <= depth e) es.
Proof.
  intros (l1 & l2 & -> & H1 & H2). apply Forall_app. split; [exact H1|].
  constructor; [lia|]. eapply Forall_impl; [|exact H2]. simpl. lia.
Qed.

Lemma deepest_latest_unique (es : list Evaluation) (e1 e2 : Evaluation) :
  deepest_latest es e1 -> deepest_latest es e2 -> e1 = e2.
Proof.
  intros (l1 & l2 & He1 & H1 & H2) (m1 & m2 & He2 & G1 & G2).
  rewrite He1 in He2. apply app_eq_app in He2 as [l [[Hl Hr] | [Hl Hr]]].
  - destruct l as [|x l]; simpl in Hr; [now injection Hr|].
    injection Hr as <- Hm2. subst.
    rewrite Forall_app in H1. destruct H1 as [_ H1]. inversion H1; subst.
    rewrite Forall_app in G2. destruct G2 as [_ G2]. inversion G2; subst. lia.
  - destruct l as [|x l]; simpl in Hr; [now injection Hr|].
    injection Hr as <- Hl2. subst.
    rewrite Forall_app in G1. destruct G1 as [_ G1]. inversion G1; subst.
    rewrite Forall_app in H2. destruct H2 as [_ H2]. inversion H2; subst. lia.
Qed.

Lemma track_step (st : loop_state) (acc : list Evaluation) (p : Evaluation) :
  tracked_inv st acc -> tracked_inv (track (Some p) st) (app acc (filter trackable [p])).
Proof.
  unfold tracked_inv, track, trackable. simpl.
  intros [(Hn & Hb & ->) | (e & He & Hb & Hle & Hd)]; rewrite Hb.
  - destruct (Z.leb_spec (-1) (depth p)); simpl.
    + right. exists p. repeat split; try reflexivity; try lia.
      exists [], []. repeat split; constructor.
    + left. auto.
  - destruct (Z.leb_spec (depth e) (depth p)) as [Hep|Hep]; simpl.
    + assert (Hp : (-1 <=? depth p) = true) by (apply Z.leb_le; lia). rewrite Hp.
      right. exists p. repeat split; try reflexivity; try lia.
      exists acc, []. repeat split.
      * eapply Forall_impl; [|exact (deepest_latest_bound _ _ Hd)]. simpl. lia.
      * constructor.
    + right. exists e. repeat split; auto.
      destruct (-1 <=? depth p); [|now rewrite app_nil_r].
      destruct Hd as (l1 & l2 & -> & H1 & H2).
      exists l1, (app l2 [p]). rewrite <- app_assoc. repeat split; auto.
      apply Forall_app. split; [exact H2|]. constructor; [exact Hep | constructor].
Qed.

Lemma bestmove_line_keeps (line : string) (st st' : loop_state) :
  bestmove_line line st = Ok st' ->
  ls_evaluation st' = ls_evaluation st /\ ls_best_depth st' = ls_best_depth st.
Proof.
  unfold bestmove_line.
  destruct (py_in "ponder" (py_split line)).
  - destruct (py_index (py_split line) "ponder"); simpl; [|discriminate].
    intros H; injection H as <-. auto.
  - intros H; injection H as <-. auto.
Qed.

Lemma read_loop_tracks (lines : list string) (st st' : loop_state) (acc : list Evaluation) :
  tracked_inv st acc -> read_loop lines st = Ok st' ->
  tracked_inv st' (app acc (filter trackable (parsed_evaluations lines))).
Proof.
  revert st acc. induction lines as [|l lines IH]; intros st acc Hinv Hloop; simpl in *.
  - injection Hloop as <-. now rewrite app_nil_r.
  - destruct (String.eqb (py_strip l) ""); [now apply (IH st acc)|].
    destruct (String.prefix "info" (py_strip l)).
    + destruct (parse_evaluation (py_strip l)) as [[p|]|e]; [| |discriminate].
      * change (p :: parsed_evaluations lines) with (app [p] (parsed_evaluations lines)).
        rewrite filter_app, app_assoc. apply (IH _ _ (track_step st acc p Hinv) Hloop).
      * now apply (IH _ _ Hinv).
    + destruct (String.prefix "bestmove" (py_strip l)).
      * simpl. rewrite app_nil_r.
        destruct (bestmove_line_keeps _ _ _ Hloop) as [He Hb].
        unfold tracked_inv in *. rewrite He, Hb. exact Hinv.
      * now apply (IH st acc).
Qed.

(** C1 (amended): after a read loop that ends without an exception, the
    tracked evaluation is the one of maximum depth among the successfully
    parsed evaluations of depth at least [-1], the latest one at that
    depth; there is none exactly when no such evaluation was parsed. *)
Theorem tracked_best_evaluation (lines : list string) (st : loop_state)
  (Hloop : read_loop lines loop_init = Ok st) :
  (forall e, ls_evaluation st = Some e <->
             deepest_latest (filter trackable (parsed_evaluations lines)) e) /\
  (ls_evaluation st = None <-> filter trackable (parsed_evaluations lines) = []).
Proof.
  assert (Hinit : tracked_inv loop_init []) by (left; auto).
  pose proof (read_loop_tracks lines loop_init st [] Hinit Hloop) as Hinv.
  simpl in Hinv. unfold tracked_inv in Hinv.
  destruct Hinv as [(Hn & _ & Hnil) | (e & He & _ & _ & Hd)].
  - rewrite Hn, Hnil. split; [|tauto].
    intros e. split; [discriminate|].
    intros (l1 & l2 & Habs & _). destruct l1; discriminate.
  - rewrite He. split.
    + intros e'. split.
      * intros H; injection H as <-. exact Hd.
      * intros Hd'. f_equal. exact (deepest_latest_unique _ _ _ Hd Hd').
    + split; [discriminate|].
      intros Hnil. rewrite Hnil in Hd. destruct Hd as (l1 & l2 & Habs & _).
      destruct l1; discriminate.
Qed.

(** The spec's example: depths [3,1,5,5,2] with scores [10,20,30,40,50];
    the later depth-5 line (score 40, that is 0.4) is tracked. *)
Lemma tracked_best_evaluation_witness :
  read_loop ["info depth 3 score cp 10"; "info depth 1 score cp 20";
             "info depth 5 score cp 30"; "info depth 5 score cp 40";
             "info depth 2 score cp 50"; "bestmove e2e4"] loop_init =
    Ok (mkLoopState (Some "e2e4") None
          (Some (mkEvaluation "cp" (PyFloat (S754_finite false 7205759403792794 (-54))) 5)) 5)
  /\ py_truediv_int_float 40 float_100 = Ok (S754_finite false 7205759403792794 (-54))
  /\ deepest_latest
       (filter trackable
          (parsed_evaluations
             ["info depth 3 score cp 10"; "info depth 1 score cp 20";
              "info depth 5 score cp 30"; "info depth 5 score cp 40";
              "info depth 2 score cp 50"; "bestmove e2e4"]))
       (mkEvaluation "cp" (PyFloat (S754_finite false 7205759403792794 (-54))) 5).
Proof.
  split; [vm_compute; reflexivity|]. split; [vm_compute; reflexivity|].
  refine (proj1 (proj1 (tracked_best_evaluation _ (mkLoopState (Some "e2e4") None
          (Some (mkEvaluation "cp" (PyFloat (S754_finite false 7205759403792794 (-54))) 5)) 5)
          _) _) _); vm_compute; reflexivity.
Defined.

(** C1 fails as stated: an evaluation parsed at depth [-2] is the deepest
    one parsed, but the loop, starting from [best_depth = -1], never
    tracks it. *)
Lemma tracked_best_negative_depth :
  read_loop ["info depth -2 score cp 10"; "bestmove e2e4"] loop_init =
    Ok (mkLoopState (Some "e2e4") None None (-1))
  /\ deepest_latest (parsed_evaluations ["info depth -2 score cp 10"; "bestmove e2e4"])
       (mkEvaluation "cp" (PyFloat (S754_finite false 7205759403792794 (-56))) (-2)).
Proof.
  split; [vm_compute; reflexivity|].
  exists [], []. split; [vm_compute; reflexivity|]. split; constructor.
Qed.

(** ** The info-line parser *)

Lemma find_index_first (x : string) (pre rest : list string) :
  ~ In x pre -> find_index x (app pre (x :: rest)) = Some (length pre).
Proof.
  induction pre as [|y pre IH]; intros Hx; simpl.
  - now rewrite String.eqb_refl.
  - destruct (String.eqb_spec x y) as [->|Hne]; [exfalso; apply Hx; now left|].
    rewrite IH; [reflexivity|]. intros H; apply Hx; now right.
Qed.

Lemma py_in_app (x : string) (pre rest : list string) :
  py_in x (app pre (x :: rest)) = true.
Proof.
  unfold py_in. apply existsb_exists. exists x. split.
  - apply in_elt.
  - apply String.eqb_refl.
Qed.

Lemma py_index_first (x : string) (pre rest : list string) :
  ~ In x pre -> py_index (app pre (x :: rest)) x = Ok (length pre).
Proof. intros Hx. unfold py_index. now rewrite find_index_first. Qed.

Lemma nth_error_after (pre rest : list string) (k : nat) :
  nth_error (app pre rest) (length pre + k) = nth_error rest k.
Proof.
  rewrite nth_error_app2 by lia. f_equal. lia.
Qed.

Lemma py_getitem_after (pre rest : list string) (k : nat) :
  py_getitem (app pre rest) (length pre + k) = match nth_error rest k with
                                                 | Some x => Ok x
                                                 | None => Err IndexError
                                                 end.
Proof. unfold py_getitem. now rewrite nth_error_after. Qed.

(** The part of the parser after the header and the depth are known. *)
Lemma parse_evaluation_shape (line : string) (pre mid : list string) (st vt : string) :
  py_split line = app pre ("score" :: st :: vt :: mid) -> ~ In "score" pre ->
  exists d,
    (forall pre' dt post, py_split line = app pre' ("depth" :: dt :: post) ->
       ~ In "depth" pre' -> forall z, py_int dt = Ok z -> d = z) /\
    parse_evaluation line = parse_score st vt d.
Proof.
  intros Hs Hpre. unfold parse_evaluation. rewrite Hs.
  rewrite py_in_app, (py_index_first _ _ _ Hpre). simpl negb. cbv beta iota.
  simpl bind.
  replace (S (length pre)) with (length pre + 1)%nat by lia.
  replace (S (length pre + 1)) with (length pre + 2)%nat by lia.
  rewrite !py_getitem_after. simpl.
  rewrite <- Hs. unfold parse_depth.
  destruct (py_in "depth" (py_split line)) eqn:Hin.
  - destruct (py_index (py_split line) "depth") as [j|ej] eqn:Hj; simpl.
    + destruct (py_getitem (py_split line) (S j)) as [dt|edt] eqn:Hdt; simpl.
      * destruct (py_int dt) as [z|ez] eqn:Hz; simpl.
        -- exists z. split; [|reflexivity].
           intros pre' dt' post Hs' Hpre' z' Hz'.
           rewrite Hs', (py_index_first _ _ _ Hpre') in Hj. injection Hj as <-.
           rewrite Hs' in Hdt. replace (S (length pre')) with (length pre' + 1)%nat in Hdt by lia.
           rewrite py_getitem_after in Hdt. simpl in Hdt. injection Hdt as <-.
           rewrite Hz in Hz'. now injection Hz' as ->.
        -- exists 0. split.
           ++ intros pre' dt' post Hs' Hpre' z' Hz'.
              rewrite Hs', (py_index_first _ _ _ Hpre') in Hj. injection Hj as <-.
              rewrite Hs' in Hdt. replace (S (length pre')) with (length pre' + 1)%nat in Hdt by lia.
              rewrite py_getitem_after in Hdt. simpl in Hdt. injection Hdt as <-.
              rewrite Hz in Hz'. discriminate.
           ++ destruct ez; try reflexivity; unfold py_int in Hz;
              destruct (split_sign (py_strip dt)) as [? ?];
              destruct (digitpart _) as [[[? ?] [|? ?]]|]; try discriminate;
              destruct (_ <=? _)%nat; discriminate.
      * exists 0. split.
        -- intros pre' dt' post Hs' Hpre' z' Hz'.
           rewrite Hs', (py_index_first _ _ _ Hpre') in Hj. injection Hj as <-.
           rewrite Hs' in Hdt. replace (S (length pre')) with (length pre' + 1)%nat in Hdt by lia.
           rewrite py_getitem_after in Hdt. discriminate.
        -- unfold py_getitem in Hdt. destruct (nth_error _ _); [discriminate|].
           injection Hdt as <-. reflexivity.
    + exists 0. unfold py_index in Hj.
      destruct (find_index "depth" (py_split line)) eqn:Hf; [discriminate|].
      injection Hj as <-. split; [|reflexivity].
      intros pre' dt' post Hs' Hpre'.
      rewrite Hs', (find_index_first _ _ _ Hpre') in Hf. discriminate.
  - exists 0. split; [|reflexivity].
    intros pre' dt' post Hs' _. rewrite Hs', py_in_app in Hin. discriminate.
Qed.

(** C3 (amended): for an info line whose first [score] token is followed
    by [cp <v>] and whose first [depth] token is followed by [<d>], where
    [int()] accepts both tokens and [v / 100.0] does not overflow, the
    parser returns exactly [{cp, v / 100.0, d}]; for [score mate <v>] with
    [int()] accepting [v], the score is the integer [v] itself. *)
Theorem parse_cp_mate_scores :
  (forall line pre mid pre' post vt dt v d q,
     py_split line = app pre ("score" :: "cp" :: vt :: mid) -> ~ In "score" pre ->
     py_split line = app pre' ("depth" :: dt :: post) -> ~ In "depth" pre' ->
     py_int vt = Ok v -> py_int dt = Ok d ->
     py_truediv_int_float v float_100 = Ok q ->
     parse_evaluation line = Ok (Some (mkEvaluation "cp" (PyFloat q) d))) /\
  (forall line pre mid vt v,
     py_split line = app pre ("score" :: "mate" :: vt :: mid) -> ~ In "score" pre ->
     py_int vt = Ok v ->
     exists d, parse_evaluation line = Ok (Some (mkEvaluation "mate" (PyInt v) d))).
Proof.
  split.
  - intros line pre mid pre' post vt dt v d q Hs Hpre Hs' Hpre' Hv Hd Hq.
    destruct (parse_evaluation_shape line pre mid "cp" vt Hs Hpre) as (d0 & Hd0 & ->).
    rewrite (Hd0 pre' dt post Hs' Hpre' d Hd). unfold parse_score. simpl.
    rewrite Hv. simpl. rewrite Hq. reflexivity.
  - intros line pre mid vt v Hs Hpre Hv.
    destruct (parse_evaluation_shape line pre mid "mate" vt Hs Hpre) as (d0 & _ & ->).
    exists d0. unfold parse_score. simpl. rewrite Hv. reflexivity.
Qed.

Lemma parse_cp_mate_scores_witness :
  parse_evaluation "info depth 12 seldepth 18 score cp -37 nodes 9000 pv e7e5" =
    Ok (Some (mkEvaluation "cp" (PyFloat (S754_finite true 6665327448508334 (-54))) 12)) /\
  (exists d, parse_evaluation "info depth 9 score mate -3 pv e2e4" =
               Ok (Some (mkEvaluation "mate" (PyInt (-3)) d))).
Proof.
  destruct parse_cp_mate_scores as [Hcp Hmate]. split.
  - apply (Hcp _ ["info"; "depth"; "12"; "seldepth"; "18"] ["nodes"; "9000"; "pv"; "e7e5"]
             ["info"] ["seldepth"; "18"; "score"; "cp"; "-37"; "nodes"; "9000"; "pv"; "e7e5"]
             "-37" "12" (-37) 12).
    all: first [vm_compute; reflexivity | simpl; intuition discriminate].
  - apply (Hmate _ ["info"; "depth"; "9"] ["pv"; "e2e4"] "-3" (-3)).
    all: first [vm_compute; reflexivity | simpl; intuition discriminate].
Defined.

(** C3 fails as stated for large integers: a [cp] value of 4301 digits
    is an integer, but [int()] refuses it (its digit limit is 4300) and
    the line gives no evaluation; [int()] reads the 401-digit [10^400],
    but [10^400 / 100.0] overflows the conversion to [float], and the
    parser raises [OverflowError] instead of returning an evaluation. *)
Lemma parse_cp_large_values :
  parse_evaluation ("info depth 5 score cp " ++ String.concat "" (repeat "9" 4301)) = Ok None /\
  py_int ("1" ++ String.concat "" (repeat "0" 400)) = Ok (10 ^ 400) /\
  py_truediv_int_float (10 ^ 400) float_100 = Err OverflowError /\
  parse_evaluation ("info depth 5 score cp 1" ++ String.concat "" (repeat "0" 400)) =
    Err OverflowError.
Proof. split; [|split; [|split]]; vm_compute; reflexivity. Qed.

(** C5 (defect): [int(score_value) / 100.0] raises [OverflowError] for a
    [cp] value past the range of [float]; [except ValueError] does not
    catch it, so the parser raises, and the exception leaves the read loop
    and the session instead of the line being skipped. *)
Theorem parse_evaluation_overflow_escapes :
  parse_evaluation ("info depth 20 score cp " ++ String.concat "" (repeat "9" 320)) =
    Err OverflowError /\
  predict_next_move "startpos" 20 None
    (mkProcess true true
       ["info depth 20 score cp " ++ String.concat "" (repeat "9" 320); "bestmove e2e4"]
       true true 0 "") = Err OverflowError.
Proof. split; vm_compute; reflexivity. Qed.

(** ** What a successful parse returns *)

Lemma parse_evaluation_some (line : string) (e : Evaluation) :
  parse_evaluation line = Ok (Some e) ->
  exists st vt d, parse_depth (py_split line) = Ok d /\ parse_score st vt d = Ok (Some e).
Proof.
  unfold parse_evaluation. cbv zeta.
  destruct (negb (py_in "score" (py_split line))); [discriminate|].
  destruct (py_index (py_split line) "score") as [i|ei]; simpl;
    [| destruct ei; simpl; discriminate].
  destruct (py_getitem (py_split line) (S i)) as [st|e1]; simpl;
    [| destruct e1; simpl; discriminate].
  destruct (py_getitem (py_split line) (S (S i))) as [vt|e2]; simpl;
    [| destruct e2; simpl; discriminate].
  destruct (parse_depth (py_split line)) as [d|ed]; simpl; [|discriminate].
  intros H. exists st, vt, d. auto.
Qed.

Lemma parse_depth_value (line : string) (d : Z) :
  parse_depth (py_split line) = Ok d -> d = 0 \/ depth_field line = Some d.
Proof.
  unfold parse_depth, depth_field, py_index, py_getitem.
  destruct (py_in "depth" (py_split line)); [|intros H; injection H; auto].
  destruct (find_index "depth" (py_split line)) as [j|]; cbn [bind py_try];
    [| intros H; injection H; auto].
  destruct (nth_error (py_split line) (S j)) as [t|]; cbn [bind py_try];
    [| intros H; injection H; auto].
  destruct (py_int t) as [z|ez]; cbn [bind py_try].
  - intros H; injection H as ->. auto.
  - destruct ez; simpl; try discriminate; intros H; injection H; auto.
Qed.

Lemma parse_score_some (st vt : string) (d : Z) (e : Evaluation) :
  parse_score st vt d = Ok (Some e) ->
  depth e = d /\ score_type e = st /\
  (st = "cp" -> exists v q, py_truediv_int_float v float_100 = Ok q /\ score_value e = PyFloat q) /\
  (st = "mate" -> exists v, score_value e = PyInt v).
Proof.
  unfold parse_score.
  destruct (String.eqb_spec st "cp") as [->|Hcp].
  - destruct (py_int vt) as [v|ev]; simpl; [| destruct ev; simpl; discriminate].
    destruct (py_truediv_int_float v float_100) as [q|eq] eqn:Hq; simpl;
      [| destruct eq; simpl; discriminate].
    intros H; injection H as <-. simpl. repeat split; [|discriminate].
    intros _. exists v, q. auto.
  - destruct (String.eqb_spec st "mate") as [->|Hmate].
    + destruct (py_int vt) as [v|ev]; simpl; [| destruct ev; simpl; discriminate].
      intros H; injection H as <-. simpl. repeat split; [discriminate|].
      intros _. exists v. auto.
    + destruct (py_float vt) as [f|ef]; simpl; [| destruct ef; simpl; discriminate].
      intros H; injection H as <-. simpl. repeat split; intros; contradiction.
Qed.

(** ** Finiteness of the [cp] score, through SpecFloat's rounding *)

Lemma digits2_pos_size (p : positive) : digits2_pos p = Pos.size p.
Proof. induction p as [p IH|p IH|]; simpl; try rewrite IH; reflexivity. Qed.

Lemma Zdigits2_log2 (m : Z) : 0 < m -> Zdigits2 m = Z.log2 m + 1.
Proof.
  destruct m as [|p|p]; intros H; try lia. simpl. rewrite digits2_pos_size.
  destruct p as [p|p|]; simpl; [lia|lia|reflexivity].
Qed.

Lemma Zdigits2_nonneg (m : Z) : 0 <= Zdigits2 m.
Proof. destruct m; simpl; lia. Qed.

Lemma Zdigits2_lt (m : Z) : 0 <= m -> m < 2 ^ Zdigits2 m.
Proof.
  intros H. destruct (Z.eq_dec m 0) as [->|Hm]; [simpl; lia|].
  rewrite Zdigits2_log2 by lia.
  destruct (Z.log2_spec m) as [_ Hlt]; [lia|]. now rewrite Z.add_1_r.
Qed.

Lemma Zdigits2_le (m k : Z) : 0 <= m -> 0 <= k -> m < 2 ^ k -> Zdigits2 m <= k.
Proof.
  intros H Hk Hlt. destruct (Z.eq_dec m 0) as [->|Hm]; [simpl; lia|].
  rewrite Zdigits2_log2 by lia.
  apply Z.log2_lt_pow2 in Hlt; lia.
Qed.

Lemma shr_1_m (mrs : shr_record) : 0 <= shr_m mrs -> shr_m (shr_1 mrs) = shr_m mrs / 2.
Proof.
  destruct mrs as [m r s]; simpl. intros H.
  destruct m as [|p|p]; [reflexivity| |lia].
  destruct p as [p|p|]; simpl.
  - apply Z.div_unique with (r := 1); lia.
  - apply Z.div_unique with (r := 0); lia.
  - reflexivity.
Qed.

Lemma iter_shr_1_m (p : positive) (mrs : shr_record) :
  0 <= shr_m mrs -> shr_m (iter_pos shr_1 p mrs) = shr_m mrs / 2 ^ Zpos p.
Proof.
  revert mrs. induction p as [p IH|p IH|]; intros mrs H; cbn [iter_pos].
  - assert (H1 : shr_m (shr_1 mrs) = shr_m mrs / 2) by (apply shr_1_m; exact H).
    assert (H1' : 0 <= shr_m (shr_1 mrs)) by (rewrite H1; apply Z.div_pos; lia).
    assert (H2 : shr_m (iter_pos shr_1 p (shr_1 mrs)) = shr_m (shr_1 mrs) / 2 ^ Zpos p)
      by (apply IH; exact H1').
    assert (H2' : 0 <= shr_m (iter_pos shr_1 p (shr_1 mrs))) by (rewrite H2; apply Z.div_pos; lia).
    rewrite (IH _ H2'), H2, H1, !Z.div_div by lia. f_equal.
    rewrite <- !Z.pow_add_r by lia. rewrite <- (Z.pow_1_r 2) at 1.
    rewrite <- Z.pow_add_r by lia. f_equal. lia.
  - assert (H2 : shr_m (iter_pos shr_1 p mrs) = shr_m mrs / 2 ^ Zpos p) by (apply IH; exact H).
    assert (H2' : 0 <= shr_m (iter_pos shr_1 p mrs)) by (rewrite H2; apply Z.div_pos; lia).
    rewrite (IH _ H2'), H2, Z.div_div by lia. f_equal.
    rewrite <- Z.pow_add_r by lia. f_equal. lia.
  - rewrite shr_1_m by assumption. reflexivity.
Qed.

Lemma shr_record_of_loc_m (m : Z) (l : location) : shr_m (shr_record_of_loc m l) = m.
Proof. destruct l as [|[]]; reflexivity. Qed.

Lemma shr_fexp_spec (m e : Z) (l : location) : 0 <= m ->
  snd (shr_fexp prec emax m e l) = Z.max e (fexp prec emax (Zdigits2 m + e)) /\
  shr_m (fst (shr_fexp prec emax m e l)) =
    m / 2 ^ (snd (shr_fexp prec emax m e l) - e).
Proof.
  intros Hm. unfold shr_fexp, shr.
  destruct (fexp prec emax (Zdigits2 m + e) - e) as [|p|p] eqn:Hn; simpl.
  - rewrite shr_record_of_loc_m, Z.sub_diag, Z.pow_0_r, Z.div_1_r. split; [lia|reflexivity].
  - rewrite iter_shr_1_m by (rewrite shr_record_of_loc_m; exact Hm).
    rewrite shr_record_of_loc_m. split; [lia|]. f_equal. f_equal. lia.
  - rewrite shr_record_of_loc_m, Z.sub_diag, Z.pow_0_r, Z.div_1_r. split; [lia|reflexivity].
Qed.

Lemma round_nearest_even_bound (m : Z) (l : location) :
  m <= round_nearest_even m l <= m + 1.
Proof.
  destruct l as [|[]]; simpl; try lia. destruct (Z.even m); lia.
Qed.

Lemma Zdigits2_mono (a b : Z) : 0 <= a <= b -> Zdigits2 a <= Zdigits2 b.
Proof.
  intros H. pose proof (Zdigits2_lt b) as Hb. pose proof (Zdigits2_nonneg b).
  apply Zdigits2_le; lia.
Qed.

Lemma Zdigits2_succ (a : Z) : 0 <= a -> Zdigits2 (a + 1) <= Zdigits2 a + 1.
Proof.
  intros H. pose proof (Zdigits2_nonneg a). pose proof (Zdigits2_lt a H).
  apply Zdigits2_le; [lia|lia|].
  rewrite Z.pow_add_r, Z.pow_1_r by lia. lia.
Qed.

Lemma Zdigits2_div_pow (a k : Z) : 0 <= a -> 0 <= k ->
  Zdigits2 (a / 2 ^ k) <= Z.max (Zdigits2 a - k) 0.
Proof.
  intros Ha Hk. pose proof (Zdigits2_lt a Ha) as Hlt. pose proof (Zdigits2_nonneg a).
  assert (Hp : 0 < 2 ^ k) by (apply Z.pow_pos_nonneg; lia).
  destruct (Z.le_gt_cases (Zdigits2 a) k) as [Hle|Hgt].
  - rewrite Z.div_small; [simpl; lia|]. split; [lia|].
    apply Z.lt_le_trans with (2 ^ Zdigits2 a); [lia|]. apply Z.pow_le_mono_r; lia.
  - rewrite Z.max_l by lia.
    apply Zdigits2_le; [apply Z.div_pos; lia|lia|].
    apply Z.div_lt_upper_bound; [lia|]. rewrite <- Z.pow_add_r by lia.
    replace (k + (Zdigits2 a - k)) with (Zdigits2 a) by lia. exact Hlt.
Qed.

(** [binary_round_aux] shifts to the exponent [e1], rounds to [r], and
    shifts once more to [e2]. *)
Lemma binary_round_aux_spec (sx : bool) (mx ex : Z) (lx : location) : 0 <= mx ->
  exists e1 r e2 : Z,
    e1 = Z.max ex (fexp prec emax (Zdigits2 mx + ex)) /\
    0 <= mx / 2 ^ (e1 - ex) /\ mx / 2 ^ (e1 - ex) <= r <= mx / 2 ^ (e1 - ex) + 1 /\
    e2 = Z.max e1 (fexp prec emax (Zdigits2 r + e1)) /\
    binary_round_aux prec emax sx mx ex lx =
      match r / 2 ^ (e2 - e1) with
      | Z0 => S754_zero sx
      | Zpos m => if e2 <=? emax - prec then S754_finite sx m e2 else S754_infinity sx
      | Zneg _ => S754_nan
      end.
Proof.
  intros Hm. unfold binary_round_aux.
  destruct (shr_fexp prec emax mx ex lx) as [mrs1 e1] eqn:H1.
  pose proof (shr_fexp_spec mx ex lx Hm) as [He1 Hm1]. rewrite H1 in He1, Hm1. simpl in He1, Hm1.
  pose proof (round_nearest_even_bound (shr_m mrs1) (loc_of_shr_record mrs1)) as Hr.
  assert (Hq : 0 <= mx / 2 ^ (e1 - ex))
    by (apply Z.div_pos; [lia| apply Z.pow_pos_nonneg; lia]).
  assert (Hr0 : 0 <= round_nearest_even (shr_m mrs1) (loc_of_shr_record mrs1)) by lia.
  destruct (shr_fexp prec emax (round_nearest_even (shr_m mrs1) (loc_of_shr_record mrs1)) e1 loc_Exact)
    as [mrs2 e2] eqn:H2.
  pose proof (shr_fexp_spec _ e1 loc_Exact Hr0) as [He2 Hm2]. rewrite H2 in He2, Hm2. simpl in He2, Hm2.
  exists e1, (round_nearest_even (shr_m mrs1) (loc_of_shr_record mrs1)), e2.
  split; [exact He1|]. split; [lia|]. split; [rewrite <- Hm1; lia|]. split; [exact He2|].
  rewrite Hm2. reflexivity.
Qed.

Lemma binary_round_aux_not_nan (sx : bool) (mx ex : Z) (lx : location) : 0 <= mx ->
  binary_round_aux prec emax sx mx ex lx <> S754_nan.
Proof.
  intros Hm. destruct (binary_round_aux_spec sx mx ex lx Hm) as (e1 & r & e2 & He1 & Hq0 & Hr & He2 & ->).
  assert (He : e1 <= e2) by lia.
  assert (0 <= r / 2 ^ (e2 - e1)) by (apply Z.div_pos; [lia| apply Z.pow_pos_nonneg; lia]).
  destruct (r / 2 ^ (e2 - e1)) as [|m|m]; [discriminate| |lia].
  destruct (e2 <=? emax - prec); discriminate.
Qed.

(** A finite result is a canonical float: at most [prec] bits of
    mantissa and an exponent at most [emax - prec]. *)
Lemma binary_round_aux_finite_bound (sx : bool) (mx ex : Z) (lx : location)
    (s : bool) (m : positive) (e : Z) : 0 <= mx ->
  binary_round_aux prec emax sx mx ex lx = S754_finite s m e ->
  Zdigits2 (Zpos m) <= prec /\ e <= emax - prec.
Proof.
  intros Hm H. destruct (binary_round_aux_spec sx mx ex lx Hm) as (e1 & r & e2 & He1 & Hq0 & Hr & He2 & Hb).
  rewrite Hb in H.
  destruct (r / 2 ^ (e2 - e1)) as [|m'|m'] eqn:Hq; try discriminate.
  destruct (e2 <=? emax - prec) eqn:Hle; [|discriminate].
  injection H as <- <- <-. apply Z.leb_le in Hle. split; [|exact Hle].
  pose proof (Zdigits2_div_pow r (e2 - e1) ltac:(lia) ltac:(lia)) as Hd. rewrite Hq in Hd.
  unfold fexp, emin, prec, emax in *. lia.
Qed.

(** No overflow to infinity below the largest binade. *)
Lemma binary_round_aux_no_overflow (sx : bool) (mx ex : Z) (lx : location) : 0 <= mx ->
  ex <= emax - prec -> Zdigits2 mx + ex <= emax - 1 ->
  is_finite_float (binary_round_aux prec emax sx mx ex lx) = true.
Proof.
  intros Hm Hex Hd. destruct (binary_round_aux_spec sx mx ex lx Hm) as (e1 & r & e2 & He1 & Hq0 & Hr & He2 & ->).
  assert (He : ex <= e1) by lia.
  pose proof (Zdigits2_div_pow mx (e1 - ex) Hm ltac:(lia)) as Hd1.
  pose proof (Zdigits2_mono r (mx / 2 ^ (e1 - ex) + 1) ltac:(lia)) as Hd2.
  pose proof (Zdigits2_succ (mx / 2 ^ (e1 - ex)) ltac:(lia)) as Hd3.
  assert (He2' : e2 <= emax - prec) by (unfold fexp, emin, prec, emax in *; lia).
  assert (0 <= r / 2 ^ (e2 - e1)) by (apply Z.div_pos; [lia| apply Z.pow_pos_nonneg; lia]).
  destruct (r / 2 ^ (e2 - e1)) as [|m|m]; [reflexivity| |lia].
  apply Z.leb_le in He2'. rewrite He2'. reflexivity.
Qed.

Lemma py_int_to_float_shape (v : Z) (f : spec_float) : py_int_to_float v = Ok f ->
  (exists s, f = S754_zero s) \/
  (exists s m e, f = S754_finite s m e /\ Zdigits2 (Zpos m) <= prec /\ e <= emax - prec).
Proof.
  unfold py_int_to_float, binary_normalize.
  destruct v as [|p|p].
  - intros H; injection H as <-. left; eauto.
  - unfold binary_round. destruct (shl_align p 0 _) as [mz ez].
    destruct (binary_round_aux prec emax false (Zpos mz) ez loc_Exact) as [s| s | |s m e] eqn:Hb;
      intros H; try discriminate; injection H as <-.
    + left; eauto.
    + exfalso. exact (binary_round_aux_not_nan _ (Zpos mz) _ _ (Pos2Z.is_nonneg mz) Hb).
    + right. exists s, m, e. split; [reflexivity|].
      exact (binary_round_aux_finite_bound _ (Zpos mz) _ _ _ _ _ (Pos2Z.is_nonneg mz) Hb).
  - unfold binary_round. destruct (shl_align p 0 _) as [mz ez].
    destruct (binary_round_aux prec emax true (Zpos mz) ez loc_Exact) as [s| s | |s m e] eqn:Hb;
      intros H; try discriminate; injection H as <-.
    + left; eauto.
    + exfalso. exact (binary_round_aux_not_nan _ (Zpos mz) _ _ (Pos2Z.is_nonneg mz) Hb).
    + right. exists s, m, e. split; [reflexivity|].
      exact (binary_round_aux_finite_bound _ (Zpos mz) _ _ _ _ _ (Pos2Z.is_nonneg mz) Hb).
Qed.

Lemma float_100_eq : float_100 = S754_finite false 7036874417766400 (-46).
Proof. vm_compute. reflexivity. Qed.

Lemma shift_match (m s : Z) : 0 <= s ->
  match s with Zpos _ => Z.shiftl m s | Z0 => m | Zneg _ => 0 end = m * 2 ^ s.
Proof.
  intros H. destruct s as [|p|p]; cbv beta iota.
  - rewrite Z.pow_0_r. lia.
  - rewrite Z.shiftl_mul_pow2 by lia. reflexivity.
  - lia.
Qed.

Lemma SFdiv_core_100 (m : positive) (e q e' : Z) (l : location) :
  Zdigits2 (Zpos m) <= prec -> e <= emax - prec ->
  SFdiv_core_binary prec emax (Zpos m) e (Zpos 7036874417766400) (-46) = (q, e', l) ->
  0 <= q /\ e' <= emax - prec /\ Zdigits2 q + e' <= emax - 1.
Proof.
  intros Hm He H. unfold SFdiv_core_binary in H. cbv zeta in H.
  change (Zdigits2 (Zpos 7036874417766400)) with 53 in H.
  assert (Hs : 0 <= e - -46 - Z.min (fexp prec emax (Zdigits2 (Zpos m) + e - (53 + -46))) (e - -46))
    by lia.
  rewrite (shift_match (Zpos m) _ Hs) in H.
  destruct (Z.div_eucl _ _) as [q0 r0] eqn:Hdiv.
  assert (Eq : q = q0) by congruence.
  assert (Ee : e' = Z.min (fexp prec emax (Zdigits2 (Zpos m) + e - (53 + -46))) (e - -46))
    by congruence.
  subst q e'. clear H.
  match type of Hdiv with Z.div_eucl ?a ?b = _ =>
    assert (Hq : q0 = a / b) by (unfold Z.div; rewrite Hdiv; reflexivity) end.
  set (s := e - -46 - Z.min (fexp prec emax (Zdigits2 (Zpos m) + e - (53 + -46))) (e - -46)) in *.
  assert (Hps : 0 < 2 ^ s) by (apply Z.pow_pos_nonneg; lia).
  assert (H52 : 2 ^ 52 = 4503599627370496) by reflexivity.
  assert (Hq1 : q0 <= Zpos m * 2 ^ s / 2 ^ 52).
  { rewrite Hq, H52. apply Z.div_le_compat_l; lia. }
  assert (Hq0 : 0 <= q0) by (rewrite Hq; apply Z.div_pos; lia).
  pose proof (Zdigits2_mono q0 (Zpos m * 2 ^ s / 2 ^ 52) ltac:(lia)) as Hd1.
  pose proof (Zdigits2_div_pow (Zpos m * 2 ^ s) 52 ltac:(lia) ltac:(lia)) as Hd2.
  assert (Hd3 : Zdigits2 (Zpos m * 2 ^ s) <= Zdigits2 (Zpos m) + s).
  { pose proof (Zdigits2_nonneg (Zpos m)).
    apply Zdigits2_le; [lia|lia|]. rewrite Z.pow_add_r by lia.
    apply Z.mul_lt_mono_pos_r; [exact Hps|]. apply Zdigits2_lt. lia. }
  set (dq := Zdigits2 q0) in *. set (dm := Zdigits2 (Zpos m)) in *.
  set (dp := Zdigits2 (Zpos m * 2 ^ s)) in *. set (dd := Zdigits2 (Zpos m * 2 ^ s / 2 ^ 52)) in *.
  clearbody dq dm dp dd. unfold s, fexp, emin, prec, emax in *.
  change IntDef.Z.max with Z.max in *. lia.
Qed.

(** Dividing an [int] by [100.0] never yields an infinity or a NaN. *)
Lemma py_truediv_100_finite (v : Z) (q : spec_float) :
  py_truediv_int_float v float_100 = Ok q -> is_finite_float q = true.
Proof.
  unfold py_truediv_int_float. destruct (py_int_to_float v) as [f|ex] eqn:Hf; simpl; [|discriminate].
  intros H; injection H as <-. rewrite float_100_eq.
  destruct (py_int_to_float_shape v f Hf) as [[s ->]|(s & m & e & -> & Hm & He)]; [reflexivity|].
  cbn [SFdiv].
  destruct (SFdiv_core_binary prec emax (Zpos m) e (Zpos 7036874417766400) (-46)) as [[q1 e1] l1] eqn:Hc.
  destruct (SFdiv_core_100 m e q1 e1 l1 Hm He Hc) as (Hq & He1 & Hd).
  apply binary_round_aux_no_overflow; assumption.
Qed.

(** ** The data-model invariant of [Evaluation] *)

(** C9 (amended): an evaluation parsed from an info line has a
    non-negative depth whenever the integer after the line's first [depth]
    token (if any) is non-negative; a parsed [cp] or [mate] score is always
    finite; the fallback evaluation has score [0.0] and the requested
    depth. *)
Theorem evaluation_invariant :
  (forall line e, parse_evaluation line = Ok (Some e) ->
     (forall d, depth_field line = Some d -> 0 <= d) -> 0 <= depth e) /\
  (forall line e, parse_evaluation line = Ok (Some e) ->
     score_type e = "cp" \/ score_type e = "mate" -> pynum_finite (score_value e) = true) /\
  (forall d0 st stderr_output rc pr, ls_evaluation st = None ->
     finish_query d0 st stderr_output rc = Ok pr ->
     pynum_finite (score_value (evaluation pr)) = true /\ depth (evaluation pr) = d0).
Proof.
  split; [|split].
  - intros line e H Hnn.
    destruct (parse_evaluation_some line e H) as (st & vt & d & Hd & Hs).
    destruct (parse_score_some st vt d e Hs) as (-> & _ & _ & _).
    destruct (parse_depth_value line d Hd) as [->|Hf]; [lia|]. exact (Hnn d Hf).
  - intros line e H Hst.
    destruct (parse_evaluation_some line e H) as (st & vt & d & _ & Hs).
    destruct (parse_score_some st vt d e Hs) as (_ & <- & Hcp & Hmate).
    destruct Hst as [Hst|Hst].
    + destruct (Hcp Hst) as (v & q & Hq & ->). exact (py_truediv_100_finite v q Hq).
    + destruct (Hmate Hst) as (v & ->). reflexivity.
  - intros d0 st stderr_output rc pr Hnone. unfold finish_query.
    destruct (negb (rc =? 0)); [discriminate|].
    destruct (ls_bestmove st) as [bm|]; [|discriminate].
    rewrite Hnone. intros H; injection H as <-. split; reflexivity.
Qed.

Lemma evaluation_invariant_witness :
  parse_evaluation "info depth 20 score cp -37" =
    Ok (Some (mkEvaluation "cp" (PyFloat (S754_finite true 6665327448508334 (-54))) 20)) /\
  0 <= 20 /\ pynum_finite (PyFloat (S754_finite true 6665327448508334 (-54))) = true /\
  depth (mkEvaluation "cp" (PyFloat (S754_zero false)) 8) = 8.
Proof.
  assert (H : parse_evaluation "info depth 20 score cp -37" =
    Ok (Some (mkEvaluation "cp" (PyFloat (S754_finite true 6665327448508334 (-54))) 20)))
    by (vm_compute; reflexivity).
  destruct evaluation_invariant as (Hdepth & Hfinite & Hfallback).
  split; [exact H|]. split; [|split].
  - apply (Hdepth _ _ H). intros d Hd. vm_compute in Hd. injection Hd as <-. lia.
  - apply (Hfinite _ _ H). left; reflexivity.
  - apply (proj2 (Hfallback 8 (mkLoopState (Some "d2d4") None None (-1)) "" 0
                    (mkPrediction "d2d4" None (mkEvaluation "cp" (PyFloat (S754_zero false)) 8))
                    eq_refl eq_refl)).
Defined.

(** C9 fails as stated: a score type other than [cp] and [mate] is read
    by [float()], which accepts [inf]; and the depth is whatever integer
    follows [depth], negative ones included. *)
Lemma evaluation_invariant_counter :
  parse_evaluation "info depth 3 score lowerbound inf" =
    Ok (Some (mkEvaluation "lowerbound" (PyFloat (S754_infinity false)) 3)) /\
  parse_evaluation "info depth -2 score cp 10" =
    Ok (Some (mkEvaluation "cp" (PyFloat (S754_finite false 7205759403792794 (-56))) (-2))).
Proof. split; vm_compute; reflexivity. Qed.

(** * Further properties of the client *)

(** ** Tokens, prefixes and the loop's bookkeeping *)

Lemma has_space_app (a b : string) : has_space (a ++ b) = has_space a || has_space b.
Proof. induction a as [|c a IH]; simpl; [reflexivity|]. rewrite IH, orb_assoc. reflexivity. Qed.

Lemma split_aux_tokens (s cur t : string) :
  has_space cur = false -> In t (split_aux s cur) -> t <> "" /\ has_space t = false.
Proof.
  revert cur. induction s as [|c s IH]; intros cur Hcur Hin; simpl in Hin.
  - destruct cur as [|c0 cur']; [contradiction|].
    destruct Hin as [<-|[]]. split; [discriminate|exact Hcur].
  - destruct (is_space c) eqn:Hc.
    + destruct cur as [|c0 cur'].
      * exact (IH "" eq_refl Hin).
      * destruct Hin as [<-|Hin]; [split; [discriminate|exact Hcur]|exact (IH "" eq_refl Hin)].
    + apply (IH (cur ++ String c "")); [|exact Hin].
      rewrite has_space_app, Hcur. simpl. rewrite Hc. reflexivity.
Qed.

Lemma py_split_tokens (s t : string) : In t (py_split s) -> t <> "" /\ has_space t = false.
Proof. apply split_aux_tokens. reflexivity. Qed.

Lemma find_index_none (x : string) (xs : list string) :
  find_index x xs = None <-> py_in x xs = false.
Proof.
  induction xs as [|y ys IH]; simpl; [tauto|].
  destruct (String.eqb x y); simpl; [split; intros H; discriminate H|].
  rewrite <- IH. destruct (find_index x ys); simpl; split; congruence.
Qed.

Lemma prefix_bestmove_not_info (s : string) :
  String.prefix "bestmove" s = true -> String.eqb s "" = false /\ String.prefix "info" s = false.
Proof.
  destruct s as [|c s]; [discriminate|]. intros H. cbn [String.prefix] in H.
  destruct (ascii_dec "b" c) as [<-|]; [split; reflexivity | discriminate].
Qed.

Lemma prefix_info_not_bestmove (s : string) :
  String.prefix "info" s = true -> String.prefix "bestmove" s = false.
Proof.
  intros Hi. destruct (String.prefix "bestmove" s) eqn:Hb; [|reflexivity].
  destruct (prefix_bestmove_not_info s Hb) as [_ Hi']. congruence.
Qed.

Lemma prefix_bestmove_empty (s : string) :
  String.eqb s "" = true -> String.prefix "bestmove" s = false.
Proof. intros H. apply String.eqb_eq in H. subst s. reflexivity. Qed.

Lemma track_ponder (parsed : option Evaluation) (st : loop_state) :
  ls_ponder (track parsed st) = ls_ponder st.
Proof.
  destruct parsed as [p|]; simpl; [destruct (ls_best_depth st <=? depth p)|]; reflexivity.
Qed.

Lemma read_loop_skip_line (pre post : list string) (l : string) (st : loop_state) :
  String.eqb (py_strip l) "" = true \/
  (String.prefix "info" (py_strip l) = false /\ String.prefix "bestmove" (py_strip l) = false) ->
  read_loop (app pre (l :: post)) st = read_loop (app pre post) st.
Proof.
  intros Hl. revert st. induction pre as [|x pre IH]; intros st; simpl.
  - destruct Hl as [He|[Hi Hb]]; [rewrite He; reflexivity|].
    destruct (String.eqb (py_strip l) ""); [reflexivity|]. rewrite Hi, Hb. reflexivity.
  - destruct (String.eqb (py_strip x) ""); [apply IH|].
    destruct (String.prefix "info" (py_strip x)).
    + destruct (parse_evaluation (py_strip x)); [apply IH|reflexivity].
    + destruct (String.prefix "bestmove" (py_strip x)); [reflexivity|apply IH].
Qed.

Lemma read_loop_after_bestmove (pre r1 r2 : list string) (l : string) (st : loop_state) :
  String.prefix "bestmove" (py_strip l) = true ->
  read_loop (app pre (l :: r1)) st = read_loop (app pre (l :: r2)) st.
Proof.
  intros Hl. destruct (prefix_bestmove_not_info _ Hl) as [He Hi].
  revert st. induction pre as [|x pre IH]; intros st; simpl.
  - rewrite He, Hi, Hl. reflexivity.
  - destruct (String.eqb (py_strip x) ""); [apply IH|].
    destruct (String.prefix "info" (py_strip x)).
    + destruct (parse_evaluation (py_strip x)); [apply IH|reflexivity].
    + destruct (String.prefix "bestmove" (py_strip x)); [reflexivity|apply IH].
Qed.

Lemma read_loop_bestmove_origin (lines : list string) (st st' : loop_state) (b : string) :
  ls_bestmove st = None -> ls_ponder st = None ->
  read_loop lines st = Ok st' -> ls_bestmove st' = Some b ->
  exists pre l rest, lines = app pre (l :: rest) /\ no_bestmove_line pre /\
    String.prefix "bestmove" (py_strip l) = true /\
    nth_error (py_split (py_strip l)) 1 = Some b /\
    ls_ponder st' = match find_index "ponder" (py_split (py_strip l)) with
                    | Some i => nth_error (py_split (py_strip l)) (S i)
                    | None => None
                    end.
Proof.
  revert st. induction lines as [|x lines IH]; intros st Hb Hp Hloop Hb'; cbn [read_loop] in Hloop.
  - injection Hloop as <-. congruence.
  - destruct (String.eqb (py_strip x) "") eqn:He.
    + destruct (IH st Hb Hp Hloop Hb') as (pre & l & rest & -> & Hno & H1 & H2 & H3).
      exists (x :: pre), l, rest. repeat split; auto.
      intros y [<-|Hy]; [exact (prefix_bestmove_empty _ He) | exact (Hno y Hy)].
    + destruct (String.prefix "info" (py_strip x)) eqn:Hi.
      * destruct (parse_evaluation (py_strip x)) as [parsed|e]; [|discriminate].
        assert (Hb2 : ls_bestmove (track parsed st) = None) by (rewrite track_bestmove; exact Hb).
        assert (Hp2 : ls_ponder (track parsed st) = None) by (rewrite track_ponder; exact Hp).
        destruct (IH _ Hb2 Hp2 Hloop Hb') as (pre & l & rest & -> & Hno & H1 & H2 & H3).
        exists (x :: pre), l, rest. repeat split; auto.
        intros y [<-|Hy]; [exact (prefix_info_not_bestmove _ Hi) | exact (Hno y Hy)].
      * destruct (String.prefix "bestmove" (py_strip x)) eqn:Hbm.
        -- exists [], x, lines. split; [reflexivity|]. split; [intros y []|].
           split; [exact Hbm|]. unfold bestmove_line in Hloop.
           set (toks := py_split (py_strip x)) in *. clearbody toks.
           assert (Hbest : forall bm pd,
                     ls_bestmove (mkLoopState bm pd (ls_evaluation st) (ls_best_depth st)) = Some b ->
                     bm = (if (2 <=? length toks)%nat then nth_error toks 1 else ls_bestmove st) ->
                     nth_error toks 1 = Some b).
           { intros bm pd Hs ->. cbn [ls_bestmove] in Hs.
             destruct (2 <=? length toks)%nat; [exact Hs | rewrite Hb in Hs; discriminate]. }
           destruct (py_in "ponder" toks) eqn:Hpin.
           ++ destruct (find_index "ponder" toks) as [i|] eqn:Hfi;
                [| apply find_index_none in Hfi; congruence].
              unfold py_index in Hloop. rewrite Hfi in Hloop. cbn [bind] in Hloop.
              injection Hloop as <-. split; [exact (Hbest _ _ Hb' eq_refl)|].
              cbn [ls_ponder].
              destruct (S i <? length toks)%nat eqn:Hlt; [reflexivity|].
              rewrite Hp. symmetry. apply nth_error_None. apply Nat.ltb_ge in Hlt. exact Hlt.
           ++ injection Hloop as <-. split; [exact (Hbest _ _ Hb' eq_refl)|].
              cbn [ls_ponder]. apply find_index_none in Hpin. rewrite Hpin. exact Hp.
        -- destruct (IH st Hb Hp Hloop Hb') as (pre & l & rest & -> & Hno & H1 & H2 & H3).
           exists (x :: pre), l, rest. repeat split; auto.
           intros y [<-|Hy]; [exact Hbm | exact (Hno y Hy)].
Qed.

Lemma finish_query_ok (d : Z) (st : loop_state) (s : string) (rc : Z) (pr : Prediction) :
  finish_query d st s rc = Ok pr ->
  rc = 0 /\ ls_bestmove st = Some (bestmove pr) /\ ls_ponder st = ponder pr /\
  evaluation pr = match ls_evaluation st with
                  | Some e => e
                  | None => mkEvaluation "cp" (PyFloat (S754_zero false)) d
                  end.
Proof.
  unfold finish_query. destruct (rc =? 0) eqn:Hrc; cbn [negb]; [|discriminate].
  destruct (ls_bestmove st) as [bm|]; [|discriminate].
  intros H; injection H as <-. apply Z.eqb_eq in Hrc. simpl. auto.
Qed.

Lemma predict_ok_loop (fen : string) (d : Z) (ms : option (list string)) (p : process)
  (pr : Prediction) :
  predict_next_move fen d ms p = Ok pr ->
  exists st, read_loop (p_stdout p) loop_init = Ok st /\
             finish_query d st (p_stderr p) (p_returncode p) = Ok pr.
Proof.
  unfold predict_next_move, query_engine. cbv zeta.
  destruct (p_launch p); cbn [negb snd]; [|discriminate].
  destruct (p_script_ok p); cbn [negb snd]; [|discriminate].
  destruct (read_loop (p_stdout p) loop_init) as [st|e]; cbn [negb snd]; [|discriminate].
  destruct (p_quit_ok p); cbn [negb snd]; [|discriminate].
  destruct (p_exits_in_time p); cbn [negb snd]; [|discriminate].
  intros H. exists st. auto.
Qed.

Lemma predict_bestmove_origin (fen : string) (d : Z) (ms : option (list string)) (p : process)
  (pr : Prediction) :
  predict_next_move fen d ms p = Ok pr ->
  exists pre l rest, p_stdout p = app pre (l :: rest) /\ no_bestmove_line pre /\
    String.prefix "bestmove" (py_strip l) = true /\
    nth_error (py_split (py_strip l)) 1 = Some (bestmove pr) /\
    ponder pr = match find_index "ponder" (py_split (py_strip l)) with
                | Some i => nth_error (py_split (py_strip l)) (S i)
                | None => None
                end.
Proof.
  intros H. destruct (predict_ok_loop _ _ _ _ _ H) as (st & Hloop & Hfin).
  destruct (finish_query_ok _ _ _ _ _ Hfin) as (_ & Hb & Hp & _).
  destruct (read_loop_bestmove_origin _ loop_init _ _ eq_refl eq_refl Hloop Hb)
    as (pre & l & rest & Hs & Hno & H1 & H2 & H3).
  exists pre, l, rest. rewrite <- Hp. auto.
Qed.

Lemma ponder_token (toks : list string) (x : string) :
  match find_index "ponder" toks with Some i => nth_error toks (S i) | None => None end = Some x ->
  In x toks.
Proof.
  destruct (find_index "ponder" toks) as [i|]; [|discriminate].
  intros H. exact (nth_error_In _ _ H).
Qed.

(** ** The read loop ignores what follows the first [bestmove] line *)

(** What the engine prints after the first [bestmove] line changes neither
    what the client writes nor its result. *)
Theorem output_after_bestmove_ignored (fen : string) (depth : Z)
  (moves : option (list string)) (p : process) (pre r1 r2 : list string) (l : string)
  (Hl : String.prefix "bestmove" (py_strip l) = true) :
  query_engine fen depth moves (with_stdout p (app pre (l :: r1))) =
  query_engine fen depth moves (with_stdout p (app pre (l :: r2))).
Proof.
  unfold query_engine, with_stdout.
  cbn [p_launch p_script_ok p_stdout p_quit_ok p_exits_in_time p_returncode p_stderr].
  rewrite (read_loop_after_bestmove pre r1 r2 l loop_init Hl). reflexivity.
Qed.

Lemma output_after_bestmove_ignored_witness :
  String.prefix "bestmove" (py_strip "bestmove e2e4 ponder e7e5") = true /\
  query_engine "startpos" 10 None
    (with_stdout (mkProcess true true [] true true 0 "")
       (app ["info depth 10 score cp 20"] ["bestmove e2e4 ponder e7e5"])) =
  query_engine "startpos" 10 None
    (with_stdout (mkProcess true true [] true true 0 "")
       (app ["info depth 10 score cp 20"]
            ["bestmove e2e4 ponder e7e5"; "info depth 30 score mate 1"; "bestmove a2a3"])).
Proof.
  split; [reflexivity|].
  exact (output_after_bestmove_ignored "startpos" 10 None (mkProcess true true [] true true 0 "")
           ["info depth 10 score cp 20"] [] ["info depth 30 score mate 1"; "bestmove a2a3"]
           "bestmove e2e4 ponder e7e5" eq_refl).
Defined.

(** A line that is blank after stripping, or that starts with neither
    [info] nor [bestmove] ([uciok], [readyok], [id ...], [option ...]),
    can be removed from the output without changing the session. *)
Theorem unrecognised_lines_ignored (fen : string) (depth : Z)
  (moves : option (list string)) (p : process) (pre post : list string) (l : string)
  (Hl : String.eqb (py_strip l) "" = true \/
        (String.prefix "info" (py_strip l) = false /\
         String.prefix "bestmove" (py_strip l) = false)) :
  query_engine fen depth moves (with_stdout p (app pre (l :: post))) =
  query_engine fen depth moves (with_stdout p (app pre post)).
Proof.
  unfold query_engine, with_stdout.
  cbn [p_launch p_script_ok p_stdout p_quit_ok p_exits_in_time p_returncode p_stderr].
  rewrite (read_loop_skip_line pre post l loop_init Hl). reflexivity.
Qed.

Lemma unrecognised_lines_ignored_witness :
  String.prefix "info" (py_strip "id name Stockfish 16") = false /\
  String.prefix "bestmove" (py_strip "id name Stockfish 16") = false /\
  query_engine "startpos" 8 None
    (with_stdout (mkProcess true true [] true true 0 "")
       (app ["uciok"] ("id name Stockfish 16" :: ["readyok"; "bestmove d2d4"]))) =
  query_engine "startpos" 8 None
    (with_stdout (mkProcess true true [] true true 0 "")
       (app ["uciok"] ["readyok"; "bestmove d2d4"])).
Proof.
  split; [reflexivity|]. split; [reflexivity|].
  apply (unrecognised_lines_ignored "startpos" 8 None (mkProcess true true [] true true 0 "")
           ["uciok"] ["readyok"; "bestmove d2d4"] "id name Stockfish 16").
  right. split; reflexivity.
Defined.

(** ** Where a prediction's move and ponder move come from *)

(** A returned prediction's [bestmove] is the second token of the first
    output line that starts with [bestmove] (after stripping), and its
    [ponder] is the token right after that line's first [ponder] token,
    [None] when there is no such token. *)
Theorem prediction_from_bestmove_line (fen : string) (depth : Z)
  (moves : option (list string)) (p : process) (pr : Prediction)
  (H : predict_next_move fen depth moves p = Ok pr) :
  exists pre l rest, p_stdout p = app pre (l :: rest) /\ no_bestmove_line pre /\
    String.prefix "bestmove" (py_strip l) = true /\
    nth_error (py_split (py_strip l)) 1 = Some (bestmove pr) /\
    ponder pr = match find_index "ponder" (py_split (py_strip l)) with
                | Some i => nth_error (py_split (py_strip l)) (S i)
                | None => None
                end.
Proof. exact (predict_bestmove_origin fen depth moves p pr H). Qed.

Lemma prediction_from_bestmove_line_witness :
  predict_next_move "startpos" 5 None
    (mkProcess true true ["info depth 5 score cp 31"; "bestmove e2e4 ponder"; "bestmove d2d4"]
       true true 0 "") = Ok (mkPrediction "e2e4" None
                               (mkEvaluation "cp" (PyFloat (S754_finite false 5584463537939415 (-54))) 5)) /\
  exists pre l rest,
    p_stdout (mkProcess true true ["info depth 5 score cp 31"; "bestmove e2e4 ponder"; "bestmove d2d4"]
                true true 0 "") = app pre (l :: rest) /\ no_bestmove_line pre /\
    String.prefix "bestmove" (py_strip l) = true /\
    nth_error (py_split (py_strip l)) 1 = Some "e2e4" /\
    None = match find_index "ponder" (py_split (py_strip l)) with
           | Some i => nth_error (py_split (py_strip l)) (S i)
           | None => None
           end.
Proof.
  assert (H : predict_next_move "startpos" 5 None
    (mkProcess true true ["info depth 5 score cp 31"; "bestmove e2e4 ponder"; "bestmove d2d4"]
       true true 0 "") = Ok (mkPrediction "e2e4" None
                               (mkEvaluation "cp" (PyFloat (S754_finite false 5584463537939415 (-54))) 5)))
    by (vm_compute; reflexivity).
  split; [exact H|].
  exact (prediction_from_bestmove_line _ _ _ _ _ H).
Defined.

(** A returned prediction's [bestmove], and its [ponder] when present, are
    non-empty strings without whitespace (the test's
    [assertTrue(prediction.bestmove)] holds for every prediction). *)
Theorem prediction_tokens_nonempty (fen : string) (depth : Z)
  (moves : option (list string)) (p : process) (pr : Prediction)
  (H : predict_next_move fen depth moves p = Ok pr) :
  bestmove pr <> "" /\ has_space (bestmove pr) = false /\
  (forall x, ponder pr = Some x -> x <> "" /\ has_space x = false).
Proof.
  destruct (predict_bestmove_origin _ _ _ _ _ H) as (pre & l & rest & _ & _ & _ & Hb & Hp).
  destruct (py_split_tokens _ _ (nth_error_In _ _ Hb)) as [Hb1 Hb2].
  split; [exact Hb1|]. split; [exact Hb2|].
  intros x Hx. rewrite Hx in Hp. symmetry in Hp.
  exact (py_split_tokens _ _ (ponder_token _ _ Hp)).
Qed.

Lemma prediction_tokens_nonempty_witness :
  predict_next_move "startpos" 5 None
    (mkProcess true true ["bestmove g1f3 ponder g8f6"] true true 0 "") =
    Ok (mkPrediction "g1f3" (Some "g8f6") (mkEvaluation "cp" (PyFloat (S754_zero false)) 5)) /\
  "g1f3" <> "" /\ has_space "g1f3" = false.
Proof.
  assert (H : predict_next_move "startpos" 5 None
    (mkProcess true true ["bestmove g1f3 ponder g8f6"] true true 0 "") =
    Ok (mkPrediction "g1f3" (Some "g8f6") (mkEvaluation "cp" (PyFloat (S754_zero false)) 5)))
    by (vm_compute; reflexivity).
  destruct (prediction_tokens_nonempty _ _ _ _ _ H) as (H1 & H2 & _).
  split; [exact H|]. split; [exact H1|exact H2].
Defined.

(** ** The exceptions a session can raise *)

Lemma py_int_err (s : string) (e : exn) : py_int s = Err e -> e = ValueError.
Proof.
  unfold py_int. destruct (split_sign (py_strip s)) as [neg body].
  destruct (digitpart body) as [[[v n] [|c r]]|];
    [destruct (n <=? int_max_str_digits)%nat| |]; intros H; congruence.
Qed.

Lemma py_float_err (s : string) (e : exn) : py_float s = Err e -> e = ValueError.
Proof.
  unfold py_float. destruct (split_sign (py_strip s)) as [neg body]. cbv zeta.
  destruct (String.eqb (py_lower body) "inf" || String.eqb (py_lower body) "infinity");
    [intros H; congruence|].
  destruct (String.eqb (py_lower body) "nan"); [intros H; congruence|].
  destruct (py_decimal body) as [[m ex]|]; intros H; congruence.
Qed.

Lemma py_truediv_err (v : Z) (y : spec_float) (e : exn) :
  py_truediv_int_float v y = Err e -> e = OverflowError.
Proof.
  unfold py_truediv_int_float, py_int_to_float.
  destruct (binary_normalize prec emax v 0 false); cbn [bind]; intros H; congruence.
Qed.

Lemma parse_depth_field (line : string) :
  parse_depth (py_split line) = Ok (match depth_field line with Some d => d | None => 0 end).
Proof.
  unfold parse_depth, depth_field, py_index, py_getitem. cbv zeta.
  destruct (py_in "depth" (py_split line)) eqn:Hin.
  - destruct (find_index "depth" (py_split line)) as [j|] eqn:Hf;
      [| apply find_index_none in Hf; congruence].
    cbn [bind py_try].
    destruct (nth_error (py_split line) (S j)) as [t|]; cbn [bind py_try]; [|reflexivity].
    destruct (py_int t) as [z|ez] eqn:Hz; cbn [bind py_try]; [reflexivity|].
    rewrite (py_int_err _ _ Hz). reflexivity.
  - apply find_index_none in Hin. rewrite Hin. reflexivity.
Qed.

Lemma parse_score_err (st vt : string) (d : Z) (e : exn) :
  parse_score st vt d = Err e -> e = OverflowError /\ st = "cp".
Proof.
  unfold parse_score. destruct (String.eqb_spec st "cp") as [->|Hcp].
  - destruct (py_int vt) as [v|ev] eqn:Hv; cbn [bind py_try].
    + destruct (py_truediv_int_float v float_100) as [q|eq] eqn:Hq; cbn [bind py_try];
        [discriminate|].
      rewrite (py_truediv_err _ _ _ Hq). cbn. intros H; injection H as <-. auto.
    + rewrite (py_int_err _ _ Hv). cbn. discriminate.
  - destruct (String.eqb_spec st "mate") as [->|Hm].
    + destruct (py_int vt) eqn:Hv; cbn [bind py_try]; [discriminate|].
      rewrite (py_int_err _ _ Hv). cbn. discriminate.
    + destruct (py_float vt) eqn:Hv; cbn [bind py_try]; [discriminate|].
      rewrite (py_float_err _ _ Hv). cbn. discriminate.
Qed.

Lemma parse_evaluation_err (line : string) (e : exn) :
  parse_evaluation line = Err e ->
  e = OverflowError /\
  exists i, find_index "score" (py_split line) = Some i /\
            nth_error (py_split line) (S i) = Some "cp".
Proof.
  unfold parse_evaluation, py_index, py_getitem. cbv zeta.
  destruct (py_in "score" (py_split line)) eqn:Hin; cbn [negb]; [|discriminate].
  destruct (find_index "score" (py_split line)) as [i|] eqn:Hf;
    [| apply find_index_none in Hf; congruence].
  cbn [bind py_try].
  destruct (nth_error (py_split line) (S i)) as [st|] eqn:Hst; cbn [bind py_try];
    [|cbn; discriminate].
  destruct (nth_error (py_split line) (S (S i))) as [vt|]; cbn [bind py_try];
    [|cbn; discriminate].
  rewrite parse_depth_field. cbn [bind].
  intros H. destruct (parse_score_err _ _ _ _ H) as [-> ->].
  split; [reflexivity|]. exists i. auto.
Qed.




(** The line parser raises only [OverflowError], and only for a line
    whose first [score] token is followed by [cp]; a [ValueError] or
    [IndexError] never leaves it. *)
Theorem parse_evaluation_only_overflow (line : string) (e : exn)
  (H : parse_evaluation line = Err e) :
  e = OverflowError /\
  exists i, find_index "score" (py_split line) = Some i /\
            nth_error (py_split line) (S i) = Some "cp".
Proof. exact (parse_evaluation_err line e H). Qed.

Lemma parse_evaluation_only_overflow_witness :
  parse_evaluation ("info score cp " ++ String.concat "" (repeat "9" 320) ++ " depth x") =
    Err OverflowError /\
  OverflowError = OverflowError /\
  exists i, find_index "score" (py_split ("info score cp " ++ String.concat "" (repeat "9" 320) ++ " depth x")) = Some i /\
            nth_error (py_split ("info score cp " ++ String.concat "" (repeat "9" 320) ++ " depth x")) (S i) = Some "cp".
Proof.
  assert (H : parse_evaluation ("info score cp " ++ String.concat "" (repeat "9" 320) ++ " depth x") =
    Err OverflowError) by (vm_compute; reflexivity).
  split; [exact H|]. exact (parse_evaluation_only_overflow _ _ H).
Defined.



(** ** The parsed depth and the type of the score *)

(** The depth of a parsed evaluation is the integer after the line's
    first [depth] token, and [0] when that token is missing, is the last
    token, or is followed by something [int()] refuses. *)
Theorem parsed_depth_value (line : string) (e : Evaluation)
  (H : parse_evaluation line = Ok (Some e)) :
  depth e = match depth_field line with Some d => d | None => 0 end.
Proof.
  destruct (parse_evaluation_some line e H) as (st & vt & d & Hd & Hs).
  rewrite parse_depth_field in Hd. injection Hd as ->.
  exact (proj1 (parse_score_some _ _ _ _ Hs)).
Qed.

Lemma parsed_depth_value_witness :
  parse_evaluation "info score cp 15 depth x" =
    Ok (Some (mkEvaluation "cp" (PyFloat (S754_finite false 5404319552844595 (-55))) 0)) /\
  depth (mkEvaluation "cp" (PyFloat (S754_finite false 5404319552844595 (-55))) 0) =
    match depth_field "info score cp 15 depth x" with Some d => d | None => 0 end.
Proof.
  assert (H : parse_evaluation "info score cp 15 depth x" =
    Ok (Some (mkEvaluation "cp" (PyFloat (S754_finite false 5404319552844595 (-55))) 0)))
    by (vm_compute; reflexivity).
  split; [exact H|]. exact (parsed_depth_value _ _ H).
Defined.

Lemma parse_score_kind (st vt : string) (d : Z) (e : Evaluation) :
  parse_score st vt d = Ok (Some e) ->
  score_type e = st /\ ((exists v, score_value e = PyInt v) <-> st = "mate").
Proof.
  unfold parse_score. destruct (String.eqb_spec st "cp") as [->|Hcp].
  - destruct (py_int vt) as [v|ev]; cbn [bind py_try].
    + destruct (py_truediv_int_float v float_100) as [q|eq]; cbn [bind py_try].
      * intros H; injection H as <-. cbn [score_type score_value].
        split; [reflexivity|]. split; [intros [z Hz]; discriminate Hz | intros Hz; discriminate Hz].
      * destruct (catches_value eq); cbn; intros H; discriminate H.
    + destruct (catches_value ev); cbn; intros H; discriminate H.
  - destruct (String.eqb_spec st "mate") as [->|Hm].
    + destruct (py_int vt) as [v|ev]; cbn [bind py_try].
      * intros H; injection H as <-. cbn [score_type score_value].
        split; [reflexivity|]. split; [reflexivity | intros _; exists v; reflexivity].
      * destruct (catches_value ev); cbn; intros H; discriminate H.
    + destruct (py_float vt) as [f|ef]; cbn [bind py_try].
      * intros H; injection H as <-. cbn [score_type score_value].
        split; [reflexivity|]. split; [intros [z Hz]; discriminate Hz | intros Hz; contradiction].
      * destruct (catches_value ef); cbn; intros H; discriminate H.
Qed.

Lemma read_loop_eval_origin (P : Evaluation -> Prop) (lines : list string) (st st' : loop_state) :
  (forall line e, parse_evaluation line = Ok (Some e) -> P e) ->
  (forall e, ls_evaluation st = Some e -> P e) ->
  read_loop lines st = Ok st' -> forall e, ls_evaluation st' = Some e -> P e.
Proof.
  intros HP. revert st. induction lines as [|x lines IH]; intros st Hst Hloop;
    cbn [read_loop] in Hloop.
  - injection Hloop as <-. exact Hst.
  - destruct (String.eqb (py_strip x) ""); [exact (IH st Hst Hloop)|].
    destruct (String.prefix "info" (py_strip x)).
    + destruct (parse_evaluation (py_strip x)) as [parsed|e'] eqn:Hpe; [|discriminate].
      apply (IH (track parsed st)); [|exact Hloop].
      intros e He. destruct parsed as [p|]; cbn [track] in He; [|exact (Hst e He)].
      destruct (ls_best_depth st <=? depth p); cbn [ls_evaluation] in He;
        [injection He as <-; exact (HP _ _ Hpe) | exact (Hst e He)].
    + destruct (String.prefix "bestmove" (py_strip x)); [|exact (IH st Hst Hloop)].
      destruct (bestmove_line_keeps _ _ _ Hloop) as [He _].
      intros e0 H0. rewrite He in H0. exact (Hst e0 H0).
Qed.

(** The score of a returned prediction is a Python [int] exactly when its
    type is [mate]; otherwise it is a [float] (the test's
    [assertIsInstance(score_value, float)] fails for mate scores). *)
Theorem score_value_int_iff_mate (fen : string) (depth : Z) (moves : option (list string))
  (p : process) (pr : Prediction) (H : predict_next_move fen depth moves p = Ok pr) :
  (exists v, score_value (evaluation pr) = PyInt v) <-> score_type (evaluation pr) = "mate".
Proof.
  destruct (predict_ok_loop _ _ _ _ _ H) as (st & Hloop & Hfin).
  destruct (finish_query_ok _ _ _ _ _ Hfin) as (_ & _ & _ & Hev). rewrite Hev.
  destruct (ls_evaluation st) as [e|] eqn:He.
  - refine (read_loop_eval_origin
              (fun e => (exists v, score_value e = PyInt v) <-> score_type e = "mate")
              (p_stdout p) loop_init st _ _ Hloop e He).
    + intros line e0 Hp.
      destruct (parse_evaluation_some _ _ Hp) as (stt & vt & d & _ & Hs).
      destruct (parse_score_kind _ _ _ _ Hs) as [-> Hk]. exact Hk.
    + intros e0 H0. cbn in H0. discriminate H0.
  - cbn [score_value score_type evaluation].
    split; [intros [v Hv]; discriminate Hv | intros Hc; discriminate Hc].
Qed.

Lemma score_value_int_iff_mate_witness :
  predict_next_move "startpos" 20 None
    (mkProcess true true ["info depth 20 score mate 3"; "bestmove e2e4"] true true 0 "") =
    Ok (mkPrediction "e2e4" None (mkEvaluation "mate" (PyInt 3) 20)) /\
  ((exists v, PyInt 3 = PyInt v) <-> "mate" = "mate").
Proof.
  assert (H : predict_next_move "startpos" 20 None
    (mkProcess true true ["info depth 20 score mate 3"; "bestmove e2e4"] true true 0 "") =
    Ok (mkPrediction "e2e4" None (mkEvaluation "mate" (PyInt 3) 20)))
    by (vm_compute; reflexivity).
  split; [exact H|]. exact (score_value_int_iff_mate _ _ _ _ _ H).
Defined.

(** ** Lines without a complete score *)

(** The line parser returns no evaluation for a line without a [score]
    token, and for one whose first [score] token is followed by fewer than
    two tokens. *)
Theorem parse_evaluation_missing_score_tokens (line : string) :
  (py_in "score" (py_split line) = false -> parse_evaluation line = Ok None) /\
  (forall i, find_index "score" (py_split line) = Some i ->
             (length (py_split line) <= S (S i))%nat -> parse_evaluation line = Ok None).
Proof.
  split.
  - intros H. unfold parse_evaluation. cbv zeta. rewrite H. reflexivity.
  - intros i Hf Hlen. unfold parse_evaluation, py_index, py_getitem. cbv zeta.
    assert (Hin : py_in "score" (py_split line) = true).
    { destruct (py_in "score" (py_split line)) eqn:E; [reflexivity|].
      apply find_index_none in E. congruence. }
    rewrite Hin, Hf. cbn [negb bind py_try].
    assert (Hn : nth_error (py_split line) (S (S i)) = None) by (apply nth_error_None; exact Hlen).
    destruct (nth_error (py_split line) (S i)); cbn [bind py_try]; [rewrite Hn|]; reflexivity.
Qed.

Lemma parse_evaluation_missing_score_tokens_witness :
  parse_evaluation "info depth 3 score cp" = Ok None /\ parse_evaluation "info depth 3" = Ok None.
Proof.
  destruct (parse_evaluation_missing_score_tokens "info depth 3 score cp") as [_ H1].
  destruct (parse_evaluation_missing_score_tokens "info depth 3") as [H2 _].
  split; [apply (H1 3%nat); vm_compute; first [reflexivity | lia] | apply H2; reflexivity].
Defined.

(** ** [analyze_position] *)

(** [analyze_position] needs a [bestmove] line as much as
    [predict_next_move] does: without one it raises the missing-best-move
    error, even when info lines gave evaluations. *)
Theorem analyze_position_needs_bestmove (fen : string) (depth : Z)
  (moves : option (list string)) (p : process)
  (Hno : no_bestmove_line (p_stdout p)) (Hl : p_launch p = true) (Hs : p_script_ok p = true)
  (Hloop : exists st, read_loop (p_stdout p) loop_init = Ok st)
  (Hq : p_quit_ok p = true) (Ht : p_exits_in_time p = true) (Hrc : p_returncode p = 0) :
  analyze_position fen depth moves p = Err (RuntimeError "Stockfish did not report a best move").
Proof.
  unfold analyze_position.
  change (snd (query_engine fen depth moves p)) with (predict_next_move fen depth moves p).
  rewrite (proj2 (no_bestmove_outcome fen depth moves p Hno) Hl Hs Hloop Hq Ht Hrc).
  reflexivity.
Qed.

Lemma analyze_position_needs_bestmove_witness :
  read_loop ["info depth 12 score cp 40"; "info depth 13 score cp 35"] loop_init =
    Ok (mkLoopState None None
          (Some (mkEvaluation "cp" (PyFloat (S754_finite false 6305039478318694 (-54))) 13)) 13) /\
  analyze_position "startpos" 13 None
    (mkProcess true true ["info depth 12 score cp 40"; "info depth 13 score cp 35"] true true 0 "") =
    Err (RuntimeError "Stockfish did not report a best move").
Proof.
  split; [vm_compute; reflexivity|].
  apply analyze_position_needs_bestmove; try reflexivity.
  - intros x Hx. destruct Hx as [<-|[<-|[]]]; reflexivity.
  - eexists. vm_compute. reflexivity.
Defined.

(** ** [main] *)




(** ** What the client writes to the engine *)

(** Without [docker] nothing is written; a successful query wrote the
    command script and then [quit]; when the line parser raises, the
    exception leaves the session after the script and before [quit]. *)
Theorem query_engine_written (fen : string) (dep : Z) (moves : option (list string))
  (p : process) :
  (p_launch p = false -> fst (query_engine fen dep moves p) = []) /\
  (forall pr, snd (query_engine fen dep moves p) = Ok pr ->
   fst (query_engine fen dep moves p) =
     app (map (fun c => c ++ nl) (engine_commands fen dep moves)) ["quit" ++ nl]) /\
  (forall e, p_launch p = true -> p_script_ok p = true ->
   read_loop (p_stdout p) loop_init = Err e ->
   query_engine fen dep moves p = (map (fun c => c ++ nl) (engine_commands fen dep moves), Err e)).
Proof.
  split; [|split].
  - intros H. unfold query_engine. rewrite H. reflexivity.
  - intros pr. unfold query_engine. cbv zeta.
    destruct (p_launch p); cbn [negb fst snd]; [|discriminate].
    destruct (p_script_ok p); cbn [negb fst snd]; [|discriminate].
    destruct (read_loop (p_stdout p) loop_init); cbn [negb fst snd]; [|discriminate].
    destruct (p_quit_ok p); cbn [negb fst snd]; [|discriminate].
    destruct (p_exits_in_time p); cbn [negb fst snd]; [|discriminate].
    intros _; reflexivity.
  - intros e Hl Hs He. unfold query_engine. cbv zeta. rewrite Hl, Hs, He. reflexivity.
Qed.

Lemma query_engine_written_witness :
  snd (query_engine "startpos" 5 (Some ["e2e4"])
         (mkProcess true true ["bestmove e7e5"] true true 0 "")) =
    Ok (mkPrediction "e7e5" None (mkEvaluation "cp" (PyFloat (S754_zero false)) 5)) /\
  fst (query_engine "startpos" 5 (Some ["e2e4"])
         (mkProcess true true ["bestmove e7e5"] true true 0 "")) =
    ["uci" ++ nl; "isready" ++ nl; "ucinewgame" ++ nl; "position startpos moves e2e4" ++ nl;
     "go depth 5" ++ nl; "quit" ++ nl] /\
  read_loop ["info score cp " ++ String.concat "" (repeat "9" 320)] loop_init = Err OverflowError /\
  query_engine "startpos" 5 None
    (mkProcess true true ["info score cp " ++ String.concat "" (repeat "9" 320)] true true 0 "") =
    (["uci" ++ nl; "isready" ++ nl; "ucinewgame" ++ nl; "position startpos" ++ nl;
      "go depth 5" ++ nl], Err OverflowError).
Proof.
  assert (H : snd (query_engine "startpos" 5 (Some ["e2e4"])
         (mkProcess true true ["bestmove e7e5"] true true 0 "")) =
    Ok (mkPrediction "e7e5" None (mkEvaluation "cp" (PyFloat (S754_zero false)) 5)))
    by (vm_compute; reflexivity).
  assert (He : read_loop ["info score cp " ++ String.concat "" (repeat "9" 320)] loop_init =
                 Err OverflowError) by (vm_compute; reflexivity).
  split; [exact H|]. split.
  - rewrite (proj1 (proj2 (query_engine_written _ _ _ _)) _ H). reflexivity.
  - split; [exact He|].
    exact (proj2 (proj2 (query_engine_written "startpos" 5 None
      (mkProcess true true ["info score cp " ++ String.concat "" (repeat "9" 320)] true true 0 "")))
      OverflowError eq_refl eq_refl He).
Defined.
